(** * Webhook ingestion gateway of the rent-control backend

    A shallow embedding of [src/routes/webhooks/stripe.js] (the route
    [POST /webhooks/stripe], its dispatcher and its eight handlers), of
    the middleware stack of [src/server.js] (body parsers, access log,
    error middleware) and of routes of [src/routes/payments.js] and
    [src/routes/admin.js], together with the properties the specification
    states about them.

    JavaScript values are the values [JSON.parse] can produce, plus
    [undefined]; the effects of the code (console output, exceptions) are
    threaded through a state-and-exception monad. *)

From Stdlib Require Import ZArith String Ascii List Lia DecimalString.
From Stdlib Require Strings.Byte.
From stdpp Require Import base gmap strings list.
Import ListNotations.
Local Open Scope Z_scope.
Set Warnings "-register-all".

(** ** JavaScript values *)

Module JS.

(** What [JSON.parse] yields, and [undefined] for absent properties.
    Numbers are the integers that a double holds exactly and prints in
    full (amounts are minor currency units); strings are kept as their
    UTF-8 bytes; objects keep their own properties in insertion order. *)
Inductive Value : Type :=
| Undefined
| Null
| Bool (b : bool)
| Num (z : Z)
| Str (s : string)
| Arr (items : list Value)
| Obj (props : list (string * Value)).

(** A thrown [Error]: its constructor name and its [message]. *)
Record Error : Type := mkError { name : string; message : string }.

Definition TypeError (msg : string) : Error := mkError "TypeError" msg.

(** Own-property lookup in a property list. *)
Fixpoint lookup (k : string) (props : list (string * Value)) : option Value :=
  match props with
  | [] => None
  | (k', v) :: rest => if String.eqb k k' then Some v else lookup k rest
  end.

Definition kindName (v : Value) : string :=
  match v with Null => "null" | _ => "undefined" end.

(** [v.k] for the property names the gateway reads ([type], [data],
    [object], [id], [amount], ...): none of them lives on a built-in
    prototype, so the read is an own-property lookup on objects and
    [undefined] on every other non-nullish value; on [null] and
    [undefined] it throws. *)
Definition get (v : Value) (k : string) : Error + Value :=
  match v with
  | Undefined | Null =>
      inl (TypeError ("Cannot read properties of " +:+ kindName v +:+
                      " (reading '" +:+ k +:+ "')"))
  | Obj props => inr (default Undefined (lookup k props))
  | _ => inr Undefined
  end.

(** [v?.k]: short-circuits to [undefined] on a nullish receiver. *)
Definition getOpt (v : Value) (k : string) : Error + Value :=
  match v with
  | Undefined | Null => inr Undefined
  | _ => get v k
  end.

Definition numToString (z : Z) : string := NilZero.string_of_int (Z.to_int z).

Definition joinWith (sep : string) (parts : list string) : string :=
  match parts with
  | [] => ""
  | p :: ps => fold_left (fun acc q => acc +:+ sep +:+ q) ps p
  end.

Definition hasOwn (k : string) (props : list (string * Value)) : bool :=
  match lookup k props with Some _ => true | None => false end.

(** The abstract operation [ToString], as a template literal applies it.
    An array is joined with commas, nullish items printing as the empty
    string. A plain object prints through [Object.prototype.toString]
    unless it has an own [toString] property: a JSON value is never
    callable, [Object.prototype.valueOf] returns the object itself, and
    the conversion ends in a [TypeError]. *)
Fixpoint toString (v : Value) : Error + string :=
  match v with
  | Undefined => inr "undefined"
  | Null => inr "null"
  | Bool true => inr "true"
  | Bool false => inr "false"
  | Num z => inr (numToString z)
  | Str s => inr s
  | Arr items =>
      let fix go (l : list Value) : Error + list string :=
        match l with
        | [] => inr []
        | x :: rest =>
            match (match x with
                   | Undefined | Null => inr ""
                   | _ => toString x
                   end) with
            | inl e => inl e
            | inr s => match go rest with
                       | inl e => inl e
                       | inr ss => inr (s :: ss)
                       end
            end
        end in
      match go items with
      | inl e => inl e
      | inr ss => inr (joinWith "," ss)
      end
  | Obj props =>
      if hasOwn "toString" props
      then inl (TypeError "Cannot convert object to primitive value")
      else inr "[object Object]"
  end.

(** [s.toLowerCase()] and [s.toUpperCase()] on strings of one-byte
    characters (ASCII and Latin-1, as Node decodes header values). The
    three Latin-1 letters whose upper case lies outside Latin-1 ([ß],
    [ÿ] and the micro sign) are left as they are. *)
Definition lowerChar (c : ascii) : ascii :=
  let n := nat_of_ascii c in
  if ((65 <=? n) && (n <=? 90) ||
      (192 <=? n) && (n <=? 222) && negb (n =? 215))%nat
  then ascii_of_nat (n + 32) else c.

Definition upperChar (c : ascii) : ascii :=
  let n := nat_of_ascii c in
  if ((97 <=? n) && (n <=? 122) ||
      (224 <=? n) && (n <=? 254) && negb (n =? 247))%nat
  then ascii_of_nat (n - 32) else c.

Fixpoint mapChars (f : ascii -> ascii) (s : string) : string :=
  match s with
  | EmptyString => EmptyString
  | String c r => String (f c) (mapChars f r)
  end.

Definition toLowerCase : string -> string := mapChars lowerChar.
Definition toUpperCase : string -> string := mapChars upperChar.

(** The text between double quotes. *)
Definition inQuotes (s : string) : string :=
  String (ascii_of_nat 34) (s +:+ String (ascii_of_nat 34) EmptyString).

(** [===] against a string literal, as a [case] label compares. *)
Definition strictEqStr (v : Value) (s : string) : bool :=
  match v with Str s' => String.eqb s' s | _ => false end.

End JS.

(** ** Dates *)

Module Date.

(** Proleptic Gregorian date of a day count since 1970-01-01. *)
Definition civil (days : Z) : Z * Z * Z :=
  let z := days + 719468 in
  let era := z / 146097 in
  let doe := z - era * 146097 in
  let yoe := (doe - doe / 1460 + doe / 36524 - doe / 146096) / 365 in
  let doy := doe - (365 * yoe + yoe / 4 - yoe / 100) in
  let mp := (5 * doy + 2) / 153 in
  let d := doy - (153 * mp + 2) / 5 + 1 in
  let m := if mp <? 10 then mp + 3 else mp - 9 in
  let y := yoe + era * 400 in
  (if m <=? 2 then y + 1 else y, m, d).

Fixpoint zeros (n : nat) : string :=
  match n with O => "" | S n' => "0" +:+ zeros n' end.

(** Decimal rendering of a non-negative number, zero-padded to [width]. *)
Definition pad (width : nat) (z : Z) : string :=
  let s := JS.numToString z in
  zeros (width - String.length s) +:+ s.

Definition year (y : Z) : string :=
  if (0 <=? y) && (y <=? 9999) then pad 4 y
  else if y <? 0 then "-" +:+ pad 6 (- y)
  else "+" +:+ pad 6 y.

(** [new Date(ms).toISOString()]. *)
Definition toISOString (ms : Z) : string :=
  let '(y, m, d) := civil (ms / 86400000) in
  let r := ms mod 86400000 in
  year y +:+ "-" +:+ pad 2 m +:+ "-" +:+ pad 2 d +:+ "T" +:+
  pad 2 (r / 3600000) +:+ ":" +:+ pad 2 (r / 60000 mod 60) +:+ ":" +:+
  pad 2 (r / 1000 mod 60) +:+ "." +:+ pad 3 (r mod 1000) +:+ "Z".

End Date.

(** ** The world the gateway acts on *)

(** [console.log] writes to standard output, [console.error] to standard
    error; an argument is a string, a value or an error object. *)
Inductive Stream : Type := Stdout | Stderr.

Inductive Arg : Type :=
| Text (s : string)
| Val (v : JS.Value)
| Err (e : JS.Error).

Record Entry : Type := mkEntry { stream : Stream; args : list Arg }.

(** The eight handler functions of the module. *)
Inductive Handler : Type :=
| CheckoutSessionCompleted
| PaymentIntentSucceeded
| PaymentIntentFailed
| SubscriptionCreated
| SubscriptionUpdated
| SubscriptionDeleted
| InvoicePaymentSucceeded
| InvoicePaymentFailed.

(** [req.body]: [undefined] on a request no body parser has seen, the
    empty object [{}] a body parser leaves when it skips the request, the
    [Buffer] a raw body parser leaves, or the value a JSON body parser
    leaves. In the last two cases the body has been read ([req._body]). *)
Inductive Body : Type :=
| Unread
| Skipped
| Buffer (bytes : list Byte.byte)
| Parsed (v : JS.Value).

(** The calls the route makes: to the verifier, with the three arguments
    it hands over, and to a handler, with its argument. The record of a
    call is written by the call itself ([construct], [invoke]). *)
Inductive Call : Type :=
| Verify (payload : Body) (sig secret : option string)
| Invoke (h : Handler) (arg : JS.Value).

(** Modelled from the spec: the Persistence/Notification Sink, a store of
    records keyed by (entity type, provider-assigned id). No function of
    the repository reads or writes it; it is carried in the world so that
    statements about it can be made. *)
Definition Sink : Type := gmap (string * string) JS.Value.

Record World : Type := mkWorld {
  console : list Entry;
  calls : list Call;
  sink : Sink;
  clock : Z  (* milliseconds since the epoch, as [Date.now()] reads it *)
}.

(** ** Effects: state and exceptions *)

(** A computation runs in a world and either throws or returns; the
    world it leaves is kept in both cases. *)
Definition M (A : Type) : Type := World -> (JS.Error + A) * World.

Definition ret {A} (a : A) : M A := fun w => (inr a, w).

Definition throw {A} (e : JS.Error) : M A := fun w => (inl e, w).

Definition bind {A B} (m : M A) (k : A -> M B) : M B :=
  fun w => match m w with
           | (inl e, w') => (inl e, w')
           | (inr a, w') => k a w'
           end.

(** [try { m } catch (e) { ... }], reified: the caller matches on the
    outcome. *)
Definition try {A} (m : M A) : M (JS.Error + A) :=
  fun w => let '(r, w') := m w in (inr r, w').

Definition lift {A} (r : JS.Error + A) : M A := fun w => (r, w).

Declare Scope js_scope.
Delimit Scope js_scope with js.
Notation "x <- m ;; k" := (bind m (fun x => k))
  (at level 100, m at next level, right associativity) : js_scope.
Notation "m ;; k" := (bind m (fun _ => k))
  (at level 100, right associativity) : js_scope.
Local Open Scope js_scope.

Definition emit (e : Entry) : M unit :=
  fun w => (inr tt, mkWorld (console w ++ [e]) (calls w) (sink w) (clock w)).

Definition console_log (a : list Arg) : M unit := emit (mkEntry Stdout a).
Definition console_error (a : list Arg) : M unit := emit (mkEntry Stderr a).

Definition Date_now : M Z := fun w => (inr (clock w), w).

(** [v.k] as a computation, and [${v.k}] inside a template literal. *)
Definition prop (v : JS.Value) (k : string) : M JS.Value := lift (JS.get v k).

Definition interp (v : JS.Value) : M string := lift (JS.toString v).

Definition field (v : JS.Value) (k : string) : M string :=
  x <- prop v k ;; interp x.

(** ** The handlers *)

Definition handleCheckoutSessionCompleted (session : JS.Value) : M unit :=
  id <- field session "id" ;;
  console_log [Text ("💰 Checkout session completed: " +:+ id)] ;;
  email <- field session "customer_email" ;;
  console_log [Text ("📧 Customer email: " +:+ email)] ;;
  amount <- field session "amount_total" ;;
  currency <- field session "currency" ;;
  console_log [Text ("💵 Amount: " +:+ amount +:+ " " +:+ currency)] ;;
  metadata <- prop session "metadata" ;;
  console_log [Text "📋 Metadata:"; Val metadata] ;;
  r <- try (
    sessionId <- prop session "id" ;;
    customerEmail <- prop session "customer_email" ;;
    amount <- prop session "amount_total" ;;
    currency <- prop session "currency" ;;
    metadata <- prop session "metadata" ;;
    t <- Date_now ;;
    let paymentRecord := JS.Obj [
      ("sessionId", sessionId);
      ("customerEmail", customerEmail);
      ("amount", amount);
      ("currency", currency);
      ("status", JS.Str "completed");
      ("metadata", metadata);
      ("timestamp", JS.Str (Date.toISOString t)) ] in
    console_log [Text "📝 Payment record created:"; Val paymentRecord]) ;;
  match r with
  | inr _ => ret tt
  | inl error =>
      console_error [Text "❌ Error processing checkout completion:"; Err error] ;;
      throw error
  end.

Definition handlePaymentIntentSucceeded (paymentIntent : JS.Value) : M unit :=
  id <- field paymentIntent "id" ;;
  console_log [Text ("✅ Payment intent succeeded: " +:+ id)] ;;
  amount <- field paymentIntent "amount" ;;
  currency <- field paymentIntent "currency" ;;
  console_log [Text ("💵 Amount: " +:+ amount +:+ " " +:+ currency)].

Definition handlePaymentIntentFailed (paymentIntent : JS.Value) : M unit :=
  id <- field paymentIntent "id" ;;
  console_log [Text ("❌ Payment intent failed: " +:+ id)] ;;
  amount <- field paymentIntent "amount" ;;
  currency <- field paymentIntent "currency" ;;
  console_log [Text ("💵 Amount: " +:+ amount +:+ " " +:+ currency)] ;;
  last_payment_error <- prop paymentIntent "last_payment_error" ;;
  reason <- lift (JS.getOpt last_payment_error "message") ;;
  reason <- interp reason ;;
  console_log [Text ("🚫 Failure reason: " +:+ reason)].

Definition handleSubscriptionCreated (subscription : JS.Value) : M unit :=
  id <- field subscription "id" ;;
  console_log [Text ("🆕 Subscription created: " +:+ id)] ;;
  customer <- field subscription "customer" ;;
  console_log [Text ("👤 Customer: " +:+ customer)] ;;
  status <- field subscription "status" ;;
  console_log [Text ("📅 Status: " +:+ status)].

Definition handleSubscriptionUpdated (subscription : JS.Value) : M unit :=
  id <- field subscription "id" ;;
  console_log [Text ("🔄 Subscription updated: " +:+ id)] ;;
  status <- field subscription "status" ;;
  console_log [Text ("📅 Status: " +:+ status)].

Definition handleSubscriptionDeleted (subscription : JS.Value) : M unit :=
  id <- field subscription "id" ;;
  console_log [Text ("🗑️ Subscription deleted: " +:+ id)] ;;
  customer <- field subscription "customer" ;;
  console_log [Text ("👤 Customer: " +:+ customer)].

Definition handleInvoicePaymentSucceeded (invoice : JS.Value) : M unit :=
  id <- field invoice "id" ;;
  console_log [Text ("💳 Invoice payment succeeded: " +:+ id)] ;;
  amount <- field invoice "amount_paid" ;;
  currency <- field invoice "currency" ;;
  console_log [Text ("💵 Amount: " +:+ amount +:+ " " +:+ currency)].

Definition handleInvoicePaymentFailed (invoice : JS.Value) : M unit :=
  id <- field invoice "id" ;;
  console_log [Text ("💳 Invoice payment failed: " +:+ id)] ;;
  amount <- field invoice "amount_due" ;;
  currency <- field invoice "currency" ;;
  console_log [Text ("💵 Amount: " +:+ amount +:+ " " +:+ currency)].

Definition run (h : Handler) : JS.Value -> M unit :=
  match h with
  | CheckoutSessionCompleted => handleCheckoutSessionCompleted
  | PaymentIntentSucceeded => handlePaymentIntentSucceeded
  | PaymentIntentFailed => handlePaymentIntentFailed
  | SubscriptionCreated => handleSubscriptionCreated
  | SubscriptionUpdated => handleSubscriptionUpdated
  | SubscriptionDeleted => handleSubscriptionDeleted
  | InvoicePaymentSucceeded => handleInvoicePaymentSucceeded
  | InvoicePaymentFailed => handleInvoicePaymentFailed
  end.

(** ** The dispatcher *)

(** A [case] clause: its label, its statements, and whether they end in
    [break]. *)
Record Clause : Type := mkClause { label : string; body : M unit; breaks : bool }.

(** Execution from a clause on: statements run in order and fall through
    to the next clause unless a [break] ends the [switch]; the [default]
    clause is the last one. *)
Fixpoint fall (cs : list Clause) (dflt : M unit) : M unit :=
  match cs with
  | [] => dflt
  | c :: rest => body c ;; if breaks c then ret tt else fall rest dflt
  end.

(** [switch (v) { case ...: ... default: ... }]: the first clause whose
    label is [===] to [v] is entered; without one, the [default]. *)
Fixpoint switch (v : JS.Value) (cs : list Clause) (dflt : M unit) : M unit :=
  match cs with
  | [] => dflt
  | c :: rest =>
      if JS.strictEqStr v (label c) then fall cs dflt else switch v rest dflt
  end.

(** A call of a handler: the handler runs, and the call is on record. *)
Definition invoke (h : Handler) (arg : JS.Value) : M unit :=
  fun w =>
    run h arg (mkWorld (console w) (calls w ++ [Invoke h arg]) (sink w) (clock w)).

(** [await handleX(event.data.object)]: the argument is evaluated, then
    the handler is called. *)
Definition call (h : Handler) (event : JS.Value) : M unit :=
  data <- prop event "data" ;;
  object <- prop data "object" ;;
  invoke h object.

Definition table : list (string * Handler) := [
  ("checkout.session.completed", CheckoutSessionCompleted);
  ("payment_intent.succeeded", PaymentIntentSucceeded);
  ("payment_intent.payment_failed", PaymentIntentFailed);
  ("customer.subscription.created", SubscriptionCreated);
  ("customer.subscription.updated", SubscriptionUpdated);
  ("customer.subscription.deleted", SubscriptionDeleted);
  ("invoice.payment_succeeded", InvoicePaymentSucceeded);
  ("invoice.payment_failed", InvoicePaymentFailed) ].

Definition clauses (event : JS.Value) : list Clause :=
  map (fun '(l, h) => mkClause l (call h event) true) table.

Definition unhandled (event : JS.Value) : M unit :=
  ty <- field event "type" ;;
  console_log [Text ("🔔 Unhandled event type: " +:+ ty)].

Definition dispatch (event : JS.Value) : M unit :=
  ty <- prop event "type" ;;
  switch ty (clauses event) (unhandled event).

(** ** The route *)

Inductive Payload : Type :=
| Send (text : string)      (* [res.send(text)] *)
| Json (v : JS.Value)       (* [res.json(v)] *)
| Empty.

Record Response : Type := mkResponse { status : Z; payload : Payload }.

Record Request : Type := mkRequest {
  method : string;
  path : string;                 (* as the router matches it: without the
                                    query string, case and a trailing
                                    slash not counting *)
  headers : gmap string string;  (* names in lower case, as Node gives them *)
  entity : list Byte.byte;       (* the bytes of the body as received *)
  reqBody : Body                 (* [req.body] *)
}.

Definition acknowledged : Response :=
  mkResponse 200 (Json (JS.Obj [("received", JS.Bool true)])).

Definition rejected (reason : string) : Response :=
  mkResponse 400 (Send ("Webhook Error: " +:+ reason)).

Definition failed : Response :=
  mkResponse 500 (Json (JS.Obj [("error", JS.Str "Webhook handler failed")])).

(** The second [try] of the route: dispatch, then acknowledge; an
    exception of the dispatch is logged and answered with 500. *)
Definition handleEvent (event : JS.Value) : M Response :=
  r <- try (dispatch event) ;;
  match r with
  | inr _ => ret acknowledged
  | inl error =>
      ty <- field event "type" ;;
      console_error [Text ("❌ Error handling webhook event " +:+ ty +:+ ":");
                     Err error] ;;
      ret failed
  end.

Section Route.

(** The provider SDK's [stripe.webhooks.constructEvent(payload, header,
    secret)]: it is not part of the repository, and enters as what it
    answers to its three arguments at a given time (it reads the clock
    for the timestamp tolerance): the parsed event, or the error it
    throws. *)
Variable constructEvent :
  Body -> option string -> option string -> Z -> JS.Error + JS.Value.

(** [process.env]. *)
Variable env : gmap string string.

(** [stripe.webhooks.constructEvent(payload, sig, secret)] as the route
    calls it: the SDK answers at the time of the call, and the call is on
    record. *)
Definition construct (payload : Body) (sig secret : option string) : M JS.Value :=
  fun w =>
    (constructEvent payload sig secret (clock w),
     mkWorld (console w) (calls w ++ [Verify payload sig secret]) (sink w) (clock w)).

(** The first [try] of the route: the SDK call and the log line that
    interpolates [event.type]. *)
Definition verify (req : Request) : M JS.Value :=
  let sig := headers req !! "stripe-signature" in
  let endpointSecret := env !! "STRIPE_WEBHOOK_SECRET" in
  event <- construct (reqBody req) sig endpointSecret ;;
  ty <- field event "type" ;;
  console_log [Text ("✅ Webhook signature verified: " +:+ ty)] ;;
  ret event.

Definition stripeWebhook (req : Request) : M Response :=
  r <- try (verify req) ;;
  match r with
  | inl err =>
      console_error
        [Text ("❌ Webhook signature verification failed: " +:+ JS.message err)] ;;
      ret (rejected (JS.message err))
  | inr event => handleEvent event
  end.

End Route.

(** ** The application: the middleware stack of [server.js] *)

(** What a layer does with a request: pass it on (possibly with
    [req.body] set), answer it, or pass an error on ([next(err)]). *)
Inductive Step : Type :=
| Next (req : Request)
| Done (resp : Response)
| Fail (err : JS.Error).

Definition Layer : Type := Request -> M Step.

Definition withBody (req : Request) (b : Body) : Request :=
  mkRequest (method req) (path req) (headers req) (entity req) b.

(** [o || d] on a string that may be [undefined]. *)
Definition orDefault (o : option string) (d : string) : string :=
  match o with
  | Some s => if String.eqb s "" then d else s
  | None => d
  end.

(** [o === s] on a string that may be [undefined]. *)
Definition isString (o : option string) (s : string) : bool :=
  match o with
  | Some x => String.eqb x s
  | None => false
  end.

(** What the stack takes from the libraries below it. *)
Record Http : Type := mkHttp {
  (** The [type-is] test of the body parsers: the request has a body and
      its [Content-Type] matches the given media type. *)
  typeis : Request -> string -> bool;
  (** zlib on a [gzip] or [deflate] entity read up to a limit: the
      inflated bytes, or the error of the stream (corrupt data, or more
      bytes than the limit). *)
  inflate : string -> Z -> list Byte.byte -> JS.Error + list Byte.byte;
  (** The [charset] parameter of the [Content-Type], in lower case. *)
  charset : Request -> option string;
  (** Whether a decoder exists for a charset. *)
  encodingExists : string -> bool;
  (** The JSON parser of [express.json]: the bytes are decoded under the
      charset and parsed. *)
  JSON_parse : string -> list Byte.byte -> JS.Error + JS.Value;
  (** The freshness test of Express on a conditional request: the
      validators the request carries match those of the response. *)
  fresh : Request -> Response -> bool;
  (** The line the ['combined'] format of morgan makes of a request, its
      response and the time. *)
  accessLine : Request -> Response -> Z -> string
}.

(** A header that is present and not empty. *)
Definition present (o : option string) : bool :=
  match o with
  | Some s => negb (String.eqb s "")
  | None => false
  end.

(** A request that carries a validator. *)
Definition conditional (req : Request) : bool :=
  present (headers req !! "if-none-match") ||
  present (headers req !! "if-modified-since").

(** The errors a body parser passes on. *)
Definition tooLarge : JS.Error :=
  JS.mkError "PayloadTooLargeError" "request entity too large".

Definition unsupportedEncoding (encoding : string) : JS.Error :=
  JS.mkError "UnsupportedMediaTypeError"
    ("unsupported content encoding " +:+ JS.inQuotes encoding).

Definition unsupportedCharset (name : string) : JS.Error :=
  JS.mkError "UnsupportedMediaTypeError"
    ("unsupported charset " +:+ JS.inQuotes (JS.toUpperCase name)).

(** The stream a body parser reads: the request itself, or the request
    piped through zlib. *)
Inductive Source : Type :=
| Identity (bytes : list Byte.byte)
| Compressed (encoding : string) (bytes : list Byte.byte).

Definition contentstream (req : Request) : JS.Error + Source :=
  let encoding :=
    JS.toLowerCase (orDefault (headers req !! "content-encoding") "identity") in
  if String.eqb encoding "deflate" || String.eqb encoding "gzip"
  then inr (Compressed encoding (entity req))
  else if String.eqb encoding "identity" then inr (Identity (entity req))
  else inl (unsupportedEncoding encoding).

(** The limits of the two parsers: the default ['100kb'] of
    [express.raw] and the ['10mb'] given to [express.json]. *)
Definition rawLimit : Z := 100 * 1024.
Definition jsonLimit : Z := 10 * 1024 * 1024.

Definition internalError (message : string) : Response :=
  mkResponse 500 (Json (JS.Obj [
    ("error", JS.Str "Internal server error");
    ("message", JS.Str message) ])).

Section App.

Variable constructEvent :
  Body -> option string -> option string -> Z -> JS.Error + JS.Value.
Variable env : gmap string string.
Variable lib : Http.

(** [express.urlencoded] and everything mounted after it: the [/api]
    routers, the root endpoint and the 404 handler. *)
Variable downstream : Request -> M Response.

(** Reading the stream under a limit. The entity arrives whole, with its
    length announced: one over the limit is refused before the decoder of
    the charset is looked up ([decoder] is the error of that lookup, if
    any). *)
Definition getBody (limit : Z) (decoder : option JS.Error) (stream : Source) :
    JS.Error + list Byte.byte :=
  match stream with
  | Identity bytes =>
      if Z.of_nat (length bytes) >? limit then inl tooLarge
      else match decoder with
           | Some err => inl err
           | None => inr bytes
           end
  | Compressed encoding bytes =>
      match decoder with
      | Some err => inl err
      | None => inflate lib encoding limit bytes
      end
  end.

(** The [read] of the body parsers: the entity is read and [req.body] is
    what [parse] makes of it; every failure is passed on as an error. *)
Definition read (limit : Z) (decoder : option JS.Error)
    (parse : list Byte.byte -> JS.Error + Body) (req : Request) : Step :=
  match contentstream req with
  | inl err => Fail err
  | inr stream =>
      match getBody limit decoder stream with
      | inl err => Fail err
      | inr bytes =>
          match parse bytes with
          | inr b => Next (withBody req b)
          | inl err => Fail err
          end
      end
  end.

(** [express.raw({type})]: a request whose body was already read is
    passed on; one without a body or of another type is passed on with
    [req.body] set to [{}]; otherwise the entity is read into a
    [Buffer]. *)
Definition raw (type : string) (req : Request) : Step :=
  match reqBody req with
  | Buffer _ | Parsed _ => Next req
  | Unread | Skipped =>
      if typeis lib req type
      then read rawLimit None (fun bytes => inr (Buffer bytes)) req
      else Next (withBody req Skipped)
  end.

Definition express_raw (type : string) : Layer := fun req => ret (raw type req).

(** [express.json({limit: '10mb'})]: as above, for the type
    [application/json]; the charset must be one of the [utf-] family, and
    the bytes are parsed as JSON. *)
Definition json (req : Request) : Step :=
  match reqBody req with
  | Buffer _ | Parsed _ => Next req
  | Unread | Skipped =>
      if typeis lib req "application/json"
      then
        let name := orDefault (charset lib req) "utf-8" in
        if negb (String.prefix "utf-" name) then Fail (unsupportedCharset name)
        else
          read jsonLimit
            (if encodingExists lib name then None else Some (unsupportedCharset name))
            (fun bytes => match JSON_parse lib name bytes with
                          | inr v => inr (Parsed v)
                          | inl err => inl err
                          end)
            req
      else Next (withBody req Skipped)
  end.

Definition express_json : Layer := fun req => ret (json req).

(** [helmet()] only decorates the response headers; [cors(...)] answers
    a preflight. *)
Definition helmet : Layer := fun req => ret (Next req).

Definition cors : Layer :=
  fun req =>
    if String.eqb (method req) "OPTIONS"
    then ret (Done (mkResponse 204 Empty))
    else ret (Next req).

(** [morgan('combined')] around the layers mounted after it: when the
    response is finished it writes one line to standard output. *)
Definition morgan (inner : Request -> M Response) : Request -> M Response :=
  fun req =>
    resp <- inner req ;;
    t <- Date_now ;;
    emit (mkEntry Stdout [Text (accessLine lib req resp t)]) ;;
    ret resp.

(** What [res.send] and [res.json] put on the wire. A successful
    response to a conditional [GET] or [HEAD] whose validators match goes
    out as 304; a 204 or a 304 carries no body, and neither does the
    response to a [HEAD]. *)
Definition sent (req : Request) (resp : Response) : Response :=
  let reading := String.eqb (method req) "GET" || String.eqb (method req) "HEAD" in
  let success :=
    (200 <=? status resp) && (status resp <? 300) || (status resp =? 304) in
  let code :=
    if reading && success && conditional req && fresh lib req resp
    then 304 else status resp in
  if (code =? 204) || (code =? 304) || String.eqb (method req) "HEAD"
  then mkResponse code Empty
  else mkResponse code (payload resp).

Definition health : Layer :=
  fun req =>
    if (String.eqb (method req) "GET" || String.eqb (method req) "HEAD")
       && String.eqb (path req) "/health"
    then
      t <- Date_now ;;
      ret (Done (mkResponse 200 (Json (JS.Obj [
        ("status", JS.Str "OK");
        ("timestamp", JS.Str (Date.toISOString t));
        ("environment", JS.Str (orDefault (env !! "NODE_ENV") "development")) ]))))
    else ret (Next req).

(** [app.use('/webhooks', router)] with
    [router.post('/stripe', express.raw({type: 'application/json'}), handler)]. *)
Definition webhooks : Layer :=
  fun req =>
    if String.eqb (method req) "POST" && String.eqb (path req) "/webhooks/stripe"
    then
      s <- express_raw "application/json" req ;;
      match s with
      | Next req' =>
          resp <- stripeWebhook constructEvent env req' ;;
          ret (Done resp)
      | other => ret other
      end
    else ret (Next req).

(** The error-handling middleware. *)
Definition errorHandler (err : JS.Error) : M Response :=
  console_error [Text "Error:"; Err err] ;;
  ret (internalError
         (if isString (env !! "NODE_ENV") "development"
          then JS.message err else "Something went wrong")).

Fixpoint chain (layers : list Layer) (last : Request -> M Response)
    (req : Request) : M Response :=
  match layers with
  | [] => last req
  | l :: rest =>
      s <- l req ;;
      match s with
      | Next req' => chain rest last req'
      | Done resp => ret resp
      | Fail err => errorHandler err
      end
  end.

(** The layers in the order [server.js] mounts them. *)
Definition stack (layers : list Layer) : Request -> M Response :=
  chain [helmet; cors]
    (morgan (fun req =>
       resp <- chain layers downstream req ;;
       ret (sent req resp))).

Definition app : Request -> M Response :=
  stack [health; webhooks; express_json].

(** The same layers with the JSON body parser mounted before the
    webhook router: the order [server.js] warns against. *)
Definition app_json_first : Request -> M Response :=
  stack [health; express_json; webhooks].

End App.

(** ** JSON text *)

Module Json.

Definition quote : ascii := ascii_of_nat 34.
Definition backslash : ascii := ascii_of_nat 92.

Definition code (c : ascii) : Z := Z.of_nat (nat_of_ascii c).

Definition isSpace (c : ascii) : bool :=
  let n := code c in (n =? 32) || (n =? 10) || (n =? 13) || (n =? 9).

Definition isDigit (c : ascii) : bool :=
  let n := code c in (48 <=? n) && (n <=? 57).

Fixpoint skip (s : string) : string :=
  match s with
  | String c r => if isSpace c then skip r else s
  | EmptyString => s
  end.

(** The digits at the head of [s], as a number, and what follows them. *)
Fixpoint digits (acc : Z) (s : string) : Z * string :=
  match s with
  | String c r => if isDigit c then digits (acc * 10 + (code c - 48)) r else (acc, s)
  | EmptyString => (acc, s)
  end.

Definition unescape (c : ascii) : option ascii :=
  let n := code c in
  if n =? 34 then Some quote
  else if n =? 92 then Some backslash
  else if n =? 47 then Some (ascii_of_nat 47)
  else if n =? 98 then Some (ascii_of_nat 8)
  else if n =? 102 then Some (ascii_of_nat 12)
  else if n =? 110 then Some (ascii_of_nat 10)
  else if n =? 114 then Some (ascii_of_nat 13)
  else if n =? 116 then Some (ascii_of_nat 9)
  else None.

(** The characters of a string literal after its opening quote, up to
    the closing one. *)
Fixpoint chars (s : string) : option (string * string) :=
  match s with
  | EmptyString => None
  | String c r =>
      if Ascii.eqb c quote then Some (EmptyString, r)
      else if Ascii.eqb c backslash then
        match r with
        | String e r' =>
            match unescape e, chars r' with
            | Some x, Some (t, rest) => Some (String x t, rest)
            | _, _ => None
            end
        | EmptyString => None
        end
      else if code c <? 32 then None
      else match chars r with
           | Some (t, rest) => Some (String c t, rest)
           | None => None
           end
  end.

(** Expects [word] at the head of [s]. *)
Definition keyword (word : string) (v : JS.Value) (s : string) : option (JS.Value * string) :=
  if String.prefix word s
  then Some (v, String.substring (String.length word) (String.length s - String.length word) s)
  else None.

(** A later member with the same name replaces the value of an earlier one. *)
Fixpoint define (k : string) (v : JS.Value) (props : list (string * JS.Value)) :
    list (string * JS.Value) :=
  match props with
  | [] => [(k, v)]
  | (k', v') :: rest =>
      if String.eqb k k' then (k, v) :: rest else (k', v') :: define k v rest
  end.

(** Recursive descent over the text; the fuel bounds the number of
    values and separators read. Numbers are integers: a fraction or an
    exponent is not read. *)
Fixpoint value (fuel : nat) (s : string) : option (JS.Value * string) :=
  match fuel with
  | O => None
  | S fuel' =>
      match skip s with
      | EmptyString => None
      | String c r =>
          let n := code c in
          if n =? 110 then keyword "null" JS.Null (String c r)
          else if n =? 116 then keyword "true" (JS.Bool true) (String c r)
          else if n =? 102 then keyword "false" (JS.Bool false) (String c r)
          else if n =? 34 then
            match chars r with
            | Some (t, rest) => Some (JS.Str t, rest)
            | None => None
            end
          else if n =? 91 then
            match skip r with
            | String c' r' =>
                if code c' =? 93 then Some (JS.Arr [], r')
                else match items fuel' r with
                     | Some (l, rest) => Some (JS.Arr l, rest)
                     | None => None
                     end
            | EmptyString => None
            end
          else if n =? 123 then
            match skip r with
            | String c' r' =>
                if code c' =? 125 then Some (JS.Obj [], r')
                else match members fuel' [] r with
                     | Some (l, rest) => Some (JS.Obj l, rest)
                     | None => None
                     end
            | EmptyString => None
            end
          else
            let '(neg, body) := if n =? 45 then (true, r) else (false, String c r) in
            match body with
            | String d _ =>
                if isDigit d then
                  let '(z, rest) := digits 0 body in
                  let leadingZero := (code d =? 48) &&
                    negb (String.length body - String.length rest =? 1)%nat in
                  match rest with
                  | String x _ =>
                      if (code x =? 46) || (code x =? 101) || (code x =? 69) || leadingZero
                      then None
                      else Some (JS.Num (if neg then - z else z), rest)
                  | EmptyString =>
                      if leadingZero then None
                      else Some (JS.Num (if neg then - z else z), rest)
                  end
                else None
            | EmptyString => None
            end
      end
  end
with items (fuel : nat) (s : string) : option (list JS.Value * string) :=
  match fuel with
  | O => None
  | S fuel' =>
      match value fuel' s with
      | Some (v, rest) =>
          match skip rest with
          | String c r =>
              if code c =? 93 then Some ([v], r)
              else if code c =? 44 then
                match items fuel' r with
                | Some (l, rest') => Some (v :: l, rest')
                | None => None
                end
              else None
          | EmptyString => None
          end
      | None => None
      end
  end
with members (fuel : nat) (acc : list (string * JS.Value)) (s : string) :
    option (list (string * JS.Value) * string) :=
  match fuel with
  | O => None
  | S fuel' =>
      match skip s with
      | String q r =>
          if code q =? 34 then
            match chars r with
            | Some (k, rest) =>
                match skip rest with
                | String colon rest1 =>
                    if code colon =? 58 then
                      match value fuel' rest1 with
                      | Some (v, rest2) =>
                          let acc' := define k v acc in
                          match skip rest2 with
                          | String c r2 =>
                              if code c =? 125 then Some (acc', r2)
                              else if code c =? 44 then members fuel' acc' r2
                              else None
                          | EmptyString => None
                          end
                      | None => None
                      end
                    else None
                | EmptyString => None
                end
            | None => None
            end
          else None
      | EmptyString => None
      end
  end.

Definition SyntaxError : JS.Error :=
  JS.mkError "SyntaxError" "Unexpected token in JSON".

(** [JSON.parse] on the text of a body, for integer-valued documents
    without [\u] escapes. *)
Definition parse (bytes : list Byte.byte) : JS.Error + JS.Value :=
  let s := string_of_list_byte bytes in
  match value (S (String.length s)) s with
  | Some (v, rest) =>
      match skip rest with
      | EmptyString => inr v
      | _ => inl SyntaxError
      end
  | None => inl SyntaxError
  end.

(** Writes a JSON text with apostrophes where the quotes go. *)
Fixpoint quoted (s : string) : string :=
  match s with
  | EmptyString => EmptyString
  | String c r => String (if code c =? 39 then quote else c) (quoted r)
  end.

Definition text (s : string) : list Byte.byte := list_byte_of_string (quoted s).

End Json.

(** ** A reference verifier *)

Module Provider.

(** Splits [s] at every occurrence of [sep]. *)
Fixpoint split (sep : ascii) (s : string) : list string :=
  match s with
  | EmptyString => [EmptyString]
  | String c r =>
      if Ascii.eqb c sep then EmptyString :: split sep r
      else match split sep r with
           | [] => [String c EmptyString]
           | w :: ws => String c w :: ws
           end
  end.

(** A decimal timestamp, or [-1] when the text is not one. *)
Definition timestamp (s : string) : Z :=
  match s with
  | EmptyString => -1
  | _ => match Json.digits 0 s with
         | (z, EmptyString) => z
         | _ => -1
         end
  end.

(** The [t=...] and [v1=...] items of a signature header. *)
Fixpoint parseHeader (items : list string) (acc : Z * list string) : Z * list string :=
  match items with
  | [] => acc
  | item :: rest =>
      let acc' :=
        match split "=" item with
        | k :: v :: _ =>
            if String.eqb k "t" then (timestamp v, snd acc)
            else if String.eqb k "v1" then (fst acc, snd acc ++ [v])
            else acc
        | _ => acc
        end in
      parseHeader rest acc'
  end.

Definition SignatureError (msg : string) : JS.Error :=
  JS.mkError "StripeSignatureVerificationError" msg.

(** Seconds a signed timestamp may lie in the past. *)
Definition tolerance : Z := 300.

Section Scheme.

(** The keyed digest of the scheme (HMAC-SHA256 at the provider), as a
    printable string. *)
Variable digest : string -> list Byte.byte -> string.

Definition signedContent (ts : Z) (bytes : list Byte.byte) : list Byte.byte :=
  list_byte_of_string (JS.numToString ts +:+ ".") ++ bytes.

(** The header a sender holding [secret] attaches to [bytes] at second [ts]. *)
Definition sign (secret : string) (ts : Z) (bytes : list Byte.byte) : string :=
  "t=" +:+ JS.numToString ts +:+ ",v1=" +:+ digest secret (signedContent ts bytes).

(** Modelled from the spec: the provider's signature verifier, which is
    not part of the repository. It rejects a missing payload or header, a
    malformed header, a digest that does not match the one computed under
    the secret over the raw bytes, and a stale timestamp; otherwise it
    returns the parsed event. Without a secret, missing or empty, nothing
    is verified: the request is rejected. *)
Definition constructEvent (payload : Body) (sig secret : option string) (now : Z) :
    JS.Error + JS.Value :=
  match payload, sig with
  | Unread, _ => inl (SignatureError "No webhook payload was provided.")
  | _, None => inl (SignatureError "No stripe-signature header value was provided.")
  | _, Some header =>
      let '(ts, sigs) := parseHeader (split "," header) (-1, []) in
      if ts =? -1 then
        inl (SignatureError "Unable to extract timestamp and signatures from header")
      else match sigs, secret, payload with
      | [], _, _ => inl (SignatureError "No signatures found with expected scheme")
      | _, None, _ =>
          inl (JS.TypeError "The key argument must be of type string. Received undefined")
      | _, Some key, Buffer bytes =>
          if String.eqb key "" then
            inl (SignatureError "No webhook secret was provided.")
          else if existsb (String.eqb (digest key (signedContent ts bytes))) sigs then
            if now / 1000 - ts >? tolerance
            then inl (SignatureError "Timestamp outside the tolerance zone")
            else Json.parse bytes
          else inl (SignatureError
                 "No signatures found matching the expected signature for payload.")
      | _, Some _, _ =>
          inl (SignatureError
                 "Webhook payload must be provided as a string or a Buffer.")
      end
  end.

End Scheme.

(** A keyed checksum standing in for the digest in worked examples: like
    the real one it is a function of the key and the content, defined for
    every key. *)
Definition checksum (key : string) (content : list Byte.byte) : string :=
  let step (acc : Z) (b : Byte.byte) :=
    (acc * 257 + Z.of_N (Byte.to_N b) + 1) mod 1000000007 in
  let k := fold_left step (list_byte_of_string key) 7 in
  JS.numToString (fold_left step content (k * 31 + 11)).

End Provider.

(** ** Observations on a world *)

(** The handlers invoked so far, with their arguments. *)
Fixpoint invoked (cs : list Call) : list (Handler * JS.Value) :=
  match cs with
  | [] => []
  | Invoke h arg :: rest => (h, arg) :: invoked rest
  | Verify _ _ _ :: rest => invoked rest
  end.

(** The payloads the verifier was called with so far. *)
Fixpoint verified (cs : list Call) : list Body :=
  match cs with
  | [] => []
  | Verify b _ _ :: rest => b :: verified rest
  | Invoke _ _ :: rest => verified rest
  end.

(** The handler registered for a [type] value, if any. *)
Definition handlerFor (ty : JS.Value) : option Handler :=
  match ty with
  | JS.Str s =>
      match find (fun '(l, _) => String.eqb s l) table with
      | Some (_, h) => Some h
      | None => None
      end
  | _ => None
  end.

(** A world with nothing on the console, no call made and an empty sink. *)
Definition blank (t : Z) : World := mkWorld [] [] ∅ t.

Definition at_time (t : Z) (w : World) : World :=
  mkWorld (console w) (calls w) (sink w) t.

(** The payment records a console shows as created. *)
Fixpoint paymentRecords (es : list Entry) : list JS.Value :=
  match es with
  | [] => []
  | mkEntry Stdout [Text "📝 Payment record created:"; Val r] :: rest =>
      r :: paymentRecords rest
  | _ :: rest => paymentRecords rest
  end.

(** No object inside the value has an own property named [toString]. *)
Fixpoint plain (v : JS.Value) : bool :=
  match v with
  | JS.Arr items => forallb plain items
  | JS.Obj props =>
      negb (JS.hasOwn "toString" props) &&
      forallb (fun kv => plain (snd kv)) props
  | _ => true
  end.

(** A computation keeps the relation [R] between the world it starts in
    and the world it leaves. *)
Definition stable (R : World -> World -> Prop) {A} (m : M A) : Prop :=
  forall w, R w (snd (m w)).

(** The sink, the clock and the record of calls are as they were, and
    the console has only grown. *)
Definition logsOnly (w w' : World) : Prop :=
  sink w' = sink w /\ clock w' = clock w /\ calls w' = calls w /\
  exists out, console w' = console w ++ out.

(** The world after one more console entry. *)
Definition logged (e : Entry) (w : World) : World :=
  mkWorld (console w ++ [e]) (calls w) (sink w) (clock w).

(** The world after one more recorded call. *)
Definition called (c : Call) (w : World) : World :=
  mkWorld (console w) (calls w ++ [c]) (sink w) (clock w).

(** The world after the access-log line of a finished request. *)
Definition accessLogged (lib : Http) (req : Request) (resp : Response) (w : World) :
    World :=
  logged (mkEntry Stdout [Text (accessLine lib req resp (clock w))]) w.

(** What a computation returns and writes when started at time [t] with
    nothing behind it. *)
Definition delta {A} (m : M A) (t : Z) : (JS.Error + A) * list Entry * list Call :=
  let '(r, d) := m (blank t) in (r, console d, calls d).

(** A computation is framed when its outcome depends on the clock alone
    and its writes are appended to whatever was there. *)
Definition framed {A} (m : M A) : Prop :=
  forall w,
    m w = let '(r, es, cs) := delta m (clock w) in
          (r, mkWorld (console w ++ es) (calls w ++ cs) (sink w) (clock w)).

(** The console lines a computation writes when started at time [t]. *)
Definition output {A} (m : M A) (t : Z) : list Entry :=
  console (snd (m (blank t))).

(** A computation is timeless when the clock does not influence it. *)
Definition timeless {A} (m : M A) : Prop :=
  forall w t, m (at_time t w) = (fst (m w), at_time t (snd (m w))).

(** Only handler invocations are recorded: the verifier is not called. *)
Definition invokesOnly (w w' : World) : Prop :=
  sink w' = sink w /\ clock w' = clock w /\
  verified (calls w') = verified (calls w) /\
  exists out, console w' = console w ++ out.

(** ** Worked deliveries *)

Module Sample.

(** 2026-11-03T12:34:56.789Z, and one minute later. *)
Definition now : Z := 1793709296789.
Definition later : Z := 1793709356789.
Definition signedAt : Z := 1793709296.

Definition sdk : Body -> option string -> option string -> Z -> JS.Error + JS.Value :=
  Provider.constructEvent Provider.checksum.

Definition env : gmap string string := {[ "STRIPE_WEBHOOK_SECRET" := "whsec_test" ]}.

(** The variable set to the empty string, and not set at all. *)
Definition envEmpty : gmap string string := {[ "STRIPE_WEBHOOK_SECRET" := "" ]}.

(** A request to the route whose body was read as a [Buffer]. *)
Definition post (signature : option string) (bytes : list Byte.byte) : Request :=
  mkRequest "POST" "/webhooks/stripe"
    (match signature with
     | Some sig => {[ "content-type" := "application/json"; "stripe-signature" := sig ]}
     | None => {[ "content-type" := "application/json" ]}
     end)
    bytes (Buffer bytes).

(** The same request as the application receives it, its body unread. *)
Definition incoming (req : Request) : Request := withBody req Unread.

(** A delivery signed by a sender that holds [secret]. *)
Definition signed (secret : string) (bytes : list Byte.byte) : Request :=
  post (Some (Provider.sign Provider.checksum secret signedAt bytes)) bytes.

Definition intent : JS.Value :=
  JS.Obj [("id", JS.Str "pi_1"); ("amount", JS.Num 5000); ("currency", JS.Str "usd")].

Definition intentBody : list Byte.byte :=
  Json.text ("{'id':'evt_1','type':'payment_intent.succeeded'," +:+
             "'data':{'object':{'id':'pi_1','amount':5000,'currency':'usd'}}}").

Definition intentEvent : JS.Value :=
  JS.Obj [("id", JS.Str "evt_1"); ("type", JS.Str "payment_intent.succeeded");
          ("data", JS.Obj [("object", intent)])].

(** A [payment_intent.succeeded] event whose [data.object] is [null]. *)
Definition nullBody : list Byte.byte :=
  Json.text ("{'id':'evt_2','type':'payment_intent.succeeded'," +:+
             "'data':{'object':null}}").

Definition session : JS.Value :=
  JS.Obj [("id", JS.Str "cs_1"); ("customer_email", JS.Str "tenant@example.com");
          ("amount_total", JS.Num 120000); ("currency", JS.Str "usd");
          ("metadata", JS.Obj [("plan", JS.Str "pro")])].

Definition checkoutBody : list Byte.byte :=
  Json.text ("{'id':'evt_3','type':'checkout.session.completed'," +:+
             "'data':{'object':{'id':'cs_1','customer_email':'tenant@example.com'," +:+
             "'amount_total':120000,'currency':'usd','metadata':{'plan':'pro'}}}}").

Definition checkoutEvent : JS.Value :=
  JS.Obj [("id", JS.Str "evt_3"); ("type", JS.Str "checkout.session.completed");
          ("data", JS.Obj [("object", session)])].

(** The payment record the checkout handler builds for [session]. *)
Definition paymentRecord (timestamp : string) : JS.Value :=
  JS.Obj [("sessionId", JS.Str "cs_1");
          ("customerEmail", JS.Str "tenant@example.com");
          ("amount", JS.Num 120000);
          ("currency", JS.Str "usd");
          ("status", JS.Str "completed");
          ("metadata", JS.Obj [("plan", JS.Str "pro")]);
          ("timestamp", JS.Str timestamp)].

(** A checkout session whose [customer_email] shadows [toString]. *)
Definition shadowed : JS.Value :=
  JS.Obj [("id", JS.Str "cs_2");
          ("customer_email", JS.Obj [("toString", JS.Num 1)])].

Definition shadowedEvent : JS.Value :=
  JS.Obj [("id", JS.Str "evt_5"); ("type", JS.Str "checkout.session.completed");
          ("data", JS.Obj [("object", shadowed)])].

Definition refundBody : list Byte.byte :=
  Json.text ("{'id':'evt_4','type':'charge.refunded'," +:+
             "'data':{'object':{'id':'ch_1'}}}").

Definition refundEvent : JS.Value :=
  JS.Obj [("id", JS.Str "evt_4"); ("type", JS.Str "charge.refunded");
          ("data", JS.Obj [("object", JS.Obj [("id", JS.Str "ch_1")])])].

(** The content-type test of the body parsers, on exact media types. *)
Definition typeis (req : Request) (type : string) : bool :=
  match headers req !! "content-type" with
  | Some t => String.eqb t type
  | None => false
  end.

Definition notFound (req : Request) : M Response :=
  ret (mkResponse 404 (Json (JS.Obj [("error", JS.Str "Not found")]))).

(** A zlib that finds every entity corrupt. *)
Definition corrupt (encoding : string) (limit : Z) (bytes : list Byte.byte) :
    JS.Error + list Byte.byte :=
  inl (JS.mkError "Error" "incorrect header check").

(** A short form of the access-log line. *)
Definition line (req : Request) (resp : Response) (t : Z) : string :=
  method req +:+ " " +:+ path req +:+ " " +:+ JS.numToString (status resp).

Definition http : Http :=
  mkHttp typeis corrupt (fun _ => None) (fun _ => true) (fun _ => Json.parse)
    (fun _ _ => false) line.

(** A JSON document of 102402 bytes: an empty array with 100 kilobytes
    of blanks inside. *)
Definition oversized : list Byte.byte :=
  Json.text "[" ++ repeat Byte.x20 (Z.to_nat rawLimit) ++ Json.text "]".

(** The request with another value of a header. *)
Definition withHeader (name value : string) (req : Request) : Request :=
  mkRequest (method req) (path req) (<[name := value]> (headers req))
    (entity req) (reqBody req).

End Sample.

(** ** The admin guard ([routes/admin.js]) *)

(** [a !== b] on two values that are each a string or [undefined]. *)
Definition differs (a b : option string) : bool :=
  match a, b with
  | Some x, Some y => negb (String.eqb x y)
  | None, None => false
  | _, _ => true
  end.

Definition unauthorized : Response :=
  mkResponse 401 (Json (JS.Obj [("error", JS.Str "Unauthorized")])).

(** [requireAdmin]: the [x-admin-key] header against [ADMIN_API_KEY]. *)
Definition requireAdmin (env : gmap string string) : Layer :=
  fun req =>
    let adminKey := headers req !! "x-admin-key" in
    if differs adminKey (env !! "ADMIN_API_KEY")
    then ret (Done unauthorized)
    else ret (Next req).

(** [router.METHOD(path, requireAdmin, handler)]: the guard, then the
    handler. *)
Definition guarded (env : gmap string string) (handler : Request -> M Response) :
    Request -> M Response :=
  chain env [requireAdmin env] handler.

(** The handler of [DELETE /users/:userId]. *)
Definition deleteUser (userId : string) (req : Request) : M Response :=
  r <- try (
    console_log [Text ("Deleting user " +:+ userId)] ;;
    ret (mkResponse 200 (Json (JS.Obj [("message", JS.Str "User deleted successfully")])))) ;;
  match r with
  | inr resp => ret resp
  | inl error =>
      console_error [Text "Error deleting user:"; Err error] ;;
      ret (mkResponse 500 (Json (JS.Obj [("error", JS.Str "Failed to delete user")])))
  end.

(** ** The payment routes *)

(** [!!v]: the falsy values are [undefined], [null], [false], [0] and
    the empty string. *)
Definition truthy (v : JS.Value) : bool :=
  match v with
  | JS.Undefined | JS.Null | JS.Bool false => false
  | JS.Num z => negb (z =? 0)
  | JS.Str s => negb (String.eqb s "")
  | _ => true
  end.

(** A request sent to the provider's API through the SDK client. *)
Inductive ApiCall : Type :=
| SubscriptionsUpdate (id params : JS.Value)
| SubscriptionsCancel (id : JS.Value)
| RefundsCreate (data : JS.Value)
| SessionsRetrieve (id : JS.Value).

(** The process state of these routes: the world, and the requests made
    to the provider so far. *)
Record Backend : Type := mkBackend { host : World; api : list ApiCall }.

Definition S (A : Type) : Type := Backend -> (JS.Error + A) * Backend.

Definition retS {A} (a : A) : S A := fun b => (inr a, b).

Definition bindS {A B} (m : S A) (k : A -> S B) : S B :=
  fun b => match m b with
           | (inl e, b') => (inl e, b')
           | (inr a, b') => k a b'
           end.

Definition tryS {A} (m : S A) : S (JS.Error + A) :=
  fun b => let '(r, b') := m b in (inr r, b').

(** A computation on the world alone, run in the process. *)
Definition onHost {A} (m : M A) : S A :=
  fun b => let '(r, w') := m (host b) in (r, mkBackend w' (api b)).

Notation "x <~ m ;; k" := (bindS m (fun x => k))
  (at level 100, m at next level, right associativity) : js_scope.

(** [const { k } = req.body] and [const { k = d } = req.body]: reading
    from [null] or [undefined] throws; a default replaces [undefined]
    only. *)
Definition destructure (body : JS.Value) (k : string) : JS.Error + JS.Value :=
  match body with
  | JS.Undefined | JS.Null =>
      inl (JS.TypeError ("Cannot destructure property '" +:+ k +:+
                         "' of 'req.body' as it is " +:+ JS.kindName body +:+ "."))
  | _ => JS.get body k
  end.

Definition orElse (v d : JS.Value) : JS.Value :=
  match v with JS.Undefined => d | _ => v end.

Section Payments.

(** The methods of the SDK client the two routes call: each resolves
    with the provider's answer or rejects. *)
Variable subscriptions_update : JS.Value -> JS.Value -> JS.Error + JS.Value.
Variable subscriptions_cancel : JS.Value -> JS.Error + JS.Value.
Variable refunds_create : JS.Value -> JS.Error + JS.Value.
Variable sessions_retrieve : JS.Value -> JS.Error + JS.Value.

(** The arithmetic of the engine on doubles: [Math.round(v * 100)] and
    [v / 100]. The conversion of an operand to a number can throw. *)
Variable toCents : JS.Value -> JS.Error + JS.Value.
Variable toUnits : JS.Value -> JS.Error + JS.Value.

Definition request (c : ApiCall) : S JS.Value :=
  fun b =>
    (match c with
     | SubscriptionsUpdate id params => subscriptions_update id params
     | SubscriptionsCancel id => subscriptions_cancel id
     | RefundsCreate data => refunds_create data
     | SessionsRetrieve id => sessions_retrieve id
     end,
     mkBackend (host b) (api b ++ [c])).

(** [POST /cancel-subscription] of [routes/payments.js]. *)
Definition cancelSubscription (body : JS.Value) : S Response :=
  r <~ tryS (
    subscriptionId <~ onHost (lift (destructure body "subscriptionId")) ;;
    cancelAtPeriodEnd <~ onHost (lift (destructure body "cancelAtPeriodEnd")) ;;
    let cancelAtPeriodEnd := orElse cancelAtPeriodEnd (JS.Bool true) in
    if negb (truthy subscriptionId) then
      retS (mkResponse 400 (Json (JS.Obj [("error", JS.Str "Missing subscription ID")])))
    else
      subscription <~
        (if truthy cancelAtPeriodEnd
         then request (SubscriptionsUpdate subscriptionId
                         (JS.Obj [("cancel_at_period_end", JS.Bool true)]))
         else request (SubscriptionsCancel subscriptionId)) ;;
      id <~ onHost (prop subscription "id") ;;
      status <~ onHost (prop subscription "status") ;;
      cancel_at_period_end <~ onHost (prop subscription "cancel_at_period_end") ;;
      canceled_at <~ onHost (prop subscription "canceled_at") ;;
      retS (mkResponse 200 (Json (JS.Obj [
        ("subscription", JS.Obj [
           ("id", id);
           ("status", status);
           ("cancel_at_period_end", cancel_at_period_end);
           ("canceled_at", canceled_at) ]) ])))) ;;
  match r with
  | inr resp => retS resp
  | inl error =>
      _ <~ onHost (console_error [Text "Error canceling subscription:"; Err error]) ;;
      retS (mkResponse 500 (Json (JS.Obj [
        ("error", JS.Str "Failed to cancel subscription");
        ("message", JS.Str (JS.message error)) ])))
  end.

(** [POST /create-refund] of [routes/payments.js]. *)
Definition createRefund (body : JS.Value) : S Response :=
  r <~ tryS (
    paymentIntentId <~ onHost (lift (destructure body "paymentIntentId")) ;;
    amount <~ onHost (lift (destructure body "amount")) ;;
    reason <~ onHost (lift (destructure body "reason")) ;;
    let reason := orElse reason (JS.Str "requested_by_customer") in
    if negb (truthy paymentIntentId) then
      retS (mkResponse 400 (Json (JS.Obj [("error", JS.Str "Missing payment intent ID")])))
    else
      let refundData := [("payment_intent", paymentIntentId); ("reason", reason)] in
      refundData <~
        (if truthy amount
         then cents <~ onHost (lift (toCents amount)) ;;
              retS (Json.define "amount" cents refundData)
         else retS refundData) ;;
      refund <~ request (RefundsCreate (JS.Obj refundData)) ;;
      id <~ onHost (prop refund "id") ;;
      paid <~ onHost (prop refund "amount") ;;
      units <~ onHost (lift (toUnits paid)) ;;
      status <~ onHost (prop refund "status") ;;
      reason <~ onHost (prop refund "reason") ;;
      retS (mkResponse 200 (Json (JS.Obj [
        ("refund", JS.Obj [
           ("id", id);
           ("amount", units);
           ("status", status);
           ("reason", reason) ]) ])))) ;;
  match r with
  | inr resp => retS resp
  | inl error =>
      _ <~ onHost (console_error [Text "Error creating refund:"; Err error]) ;;
      retS (mkResponse 500 (Json (JS.Obj [
        ("error", JS.Str "Failed to create refund");
        ("message", JS.Str (JS.message error)) ])))
  end.

(** [GET /verify-payment]; [query] holds the properties of
    [req.query], which is always an object. *)
Definition verifyPayment (query : list (string * JS.Value)) : S Response :=
  r <~ tryS (
    let session_id := default JS.Undefined (JS.lookup "session_id" query) in
    if negb (truthy session_id) then
      retS (mkResponse 400 (Json (JS.Obj [("error", JS.Str "Missing session_id parameter")])))
    else
      session <~ request (SessionsRetrieve session_id) ;;
      shown <~ onHost (interp session_id) ;;
      _ <~ onHost (console_log [Text ("🔍 Verifying payment for session: " +:+ shown)]) ;;
      payment_status <~ onHost (prop session "payment_status") ;;
      if JS.strictEqStr payment_status "paid" then
        id <~ onHost (prop session "id") ;;
        customer_email <~ onHost (prop session "customer_email") ;;
        amount_total <~ onHost (prop session "amount_total") ;;
        currency <~ onHost (prop session "currency") ;;
        metadata <~ onHost (prop session "metadata") ;;
        retS (mkResponse 200 (Json (JS.Obj [
          ("status", JS.Str "success");
          ("sessionId", id);
          ("customerEmail", customer_email);
          ("amountTotal", amount_total);
          ("currency", currency);
          ("metadata", metadata) ])))
      else
        id <~ onHost (prop session "id") ;;
        paymentStatus <~ onHost (prop session "payment_status") ;;
        retS (mkResponse 200 (Json (JS.Obj [
          ("status", JS.Str "pending");
          ("sessionId", id);
          ("paymentStatus", paymentStatus) ])))) ;;
  match r with
  | inr resp => retS resp
  | inl error =>
      _ <~ onHost (console_error [Text "❌ Payment verification error:"; Err error]) ;;
      retS (mkResponse 500 (Json (JS.Obj [
        ("error", JS.Str "Failed to verify payment");
        ("message", JS.Str (JS.message error)) ])))
  end.

End Payments.

(** ** More worked requests *)

Module Cases.

(** A provider that knows one subscription and refunds any intent. *)
Definition subscription (atPeriodEnd : bool) (status : string) : JS.Value :=
  JS.Obj [("id", JS.Str "sub_1"); ("status", JS.Str status);
          ("cancel_at_period_end", JS.Bool atPeriodEnd);
          ("canceled_at", JS.Null)].

Definition notFound : JS.Error :=
  JS.mkError "StripeInvalidRequestError" "No such subscription".

Definition subscriptions_update (id params : JS.Value) : JS.Error + JS.Value :=
  match id with
  | JS.Str "sub_1" => inr (subscription true "active")
  | _ => inl notFound
  end.

Definition subscriptions_cancel (id : JS.Value) : JS.Error + JS.Value :=
  match id with
  | JS.Str "sub_1" => inr (subscription false "canceled")
  | _ => inl notFound
  end.

Definition refunds_create (data : JS.Value) : JS.Error + JS.Value :=
  inr (JS.Obj [("id", JS.Str "re_1");
               ("amount", default JS.Null (JS.lookup "amount" match data with
                                                              | JS.Obj props => props
                                                              | _ => []
                                                              end));
               ("status", JS.Str "succeeded");
               ("reason", JS.Str "requested_by_customer")]).

Definition sessions_retrieve (id : JS.Value) : JS.Error + JS.Value :=
  match id with
  | JS.Str "cs_paid" =>
      inr (JS.Obj [("id", JS.Str "cs_paid"); ("payment_status", JS.Str "paid");
                   ("customer_email", JS.Str "tenant@example.com");
                   ("amount_total", JS.Num 120000); ("currency", JS.Str "usd")])
  | JS.Str "cs_open" =>
      inr (JS.Obj [("id", JS.Str "cs_open"); ("payment_status", JS.Str "unpaid")])
  | _ => inl (JS.mkError "StripeInvalidRequestError" "No such checkout.session")
  end.

(** The two conversions on whole amounts. *)
Definition toCents (v : JS.Value) : JS.Error + JS.Value :=
  match v with
  | JS.Num z => inr (JS.Num (z * 100))
  | _ => inl (JS.TypeError "Cannot convert object to primitive value")
  end.

Definition toUnits (v : JS.Value) : JS.Error + JS.Value :=
  match v with
  | JS.Num z => inr (JS.Num (z / 100))
  | _ => inr JS.Null
  end.

Definition start : Backend := mkBackend (blank Sample.now) [].

Definition adminEnv : gmap string string := {[ "ADMIN_API_KEY" := "s3cret" ]}.

Definition admin (key : option string) : Request :=
  mkRequest "DELETE" "/api/admin/users/42"
    (match key with
     | Some k => {[ "x-admin-key" := k ]}
     | None => ∅
     end) [] Skipped.

(** A body that is not JSON, sent as JSON to an API route. *)
Definition malformed : Request :=
  mkRequest "POST" "/api/create-refund"
    {[ "content-type" := "application/json" ]}
    (Json.text "{'paymentIntentId':") Unread.

Definition healthCheck : Request :=
  mkRequest "GET" "/health" ∅ [] Unread.

End Cases.

(** * Properties *)

(** ** Stepping through computations *)

Lemma bind_ok {A B} (m : M A) (k : A -> M B) w a w' :
  m w = (inr a, w') -> bind m k w = k a w'.
Proof. intros H. unfold bind. now rewrite H. Qed.

Lemma bind_err {A B} (m : M A) (k : A -> M B) w e w' :
  m w = (inl e, w') -> bind m k w = (inl e, w').
Proof. intros H. unfold bind. now rewrite H. Qed.

Lemma bind_unit (m : M unit) w : bind m (fun _ => ret tt) w = m w.
Proof. unfold bind, ret. destruct (m w) as [[e | []] w']; reflexivity. Qed.

Lemma world_eta w : mkWorld (console w) (calls w) (sink w) (clock w) = w.
Proof. now destruct w. Qed.

Lemma field_pure v k w : field v k w = (fst (field v k (blank 0)), w).
Proof.
  unfold field, prop, interp, lift, bind.
  destruct (JS.get v k) as [e | x]; [reflexivity |].
  now destruct (JS.toString x).
Qed.

Lemma field_ok v k x s w :
  JS.get v k = inr x -> JS.toString x = inr s -> field v k w = (inr s, w).
Proof.
  intros Hx Hs. unfold field, prop, interp, lift, bind. now rewrite Hx, Hs.
Qed.

Lemma field_obj props k s w :
  JS.toString (default JS.Undefined (JS.lookup k props)) = inr s ->
  field (JS.Obj props) k w = (inr s, w).
Proof. intros Hs. now apply (field_ok _ _ (default JS.Undefined (JS.lookup k props))). Qed.

(** ** The dispatcher enters the clause of the registered handler *)

Lemma switch_find (mk : string * Handler -> Clause)
    (Hlabel : forall l h, label (mk (l, h)) = l)
    (Hbreak : forall l h, breaks (mk (l, h)) = true)
    (t : list (string * Handler)) (s : string) (dflt : M unit) (w : World) :
  switch (JS.Str s) (map mk t) dflt w =
  match find (fun '(l, _) => String.eqb s l) t with
  | Some p => body (mk p) w
  | None => dflt w
  end.
Proof.
  induction t as [| [l h] t IH]; [reflexivity |].
  cbn [map switch find]. rewrite Hlabel. cbn [JS.strictEqStr].
  destruct (String.eqb s l).
  - cbn [fall]. rewrite Hbreak. apply bind_unit.
  - apply IH.
Qed.

Lemma switch_other (v : JS.Value) (cs : list Clause) (dflt : M unit) :
  (forall s, v <> JS.Str s) -> switch v cs dflt = dflt.
Proof.
  intros Hv. induction cs as [| c cs IH]; [reflexivity |].
  cbn [switch]. destruct v; try apply IH. now destruct (Hv s).
Qed.

Lemma dispatch_handlerFor event ty w :
  JS.get event "type" = inr ty ->
  dispatch event w =
  match handlerFor ty with
  | Some h => call h event w
  | None => unhandled event w
  end.
Proof.
  intros Hty. unfold dispatch, prop, lift. unfold bind at 1. rewrite Hty.
  destruct ty; try (rewrite switch_other by (intros ?; discriminate); reflexivity).
  unfold clauses. rewrite switch_find by (intros; reflexivity).
  unfold handlerFor.
  destruct (find _ table) as [[l h] |]; reflexivity.
Qed.

(** ** What a computation may change *)

Section Stable.

(** A relation between the world before and the world after, closed
    under sequencing. *)
Variable R : World -> World -> Prop.
Hypothesis R_refl : forall w, R w w.
Hypothesis R_trans : forall w1 w2 w3, R w1 w2 -> R w2 w3 -> R w1 w3.

Local Abbreviation stable := (stable R).

Lemma stable_ret {A} (a : A) : stable (ret a).
Proof. intros w. apply R_refl. Qed.

Lemma stable_throw {A} e : stable (throw (A:=A) e).
Proof. intros w. apply R_refl. Qed.

Lemma stable_lift {A} (r : JS.Error + A) : stable (lift r).
Proof. intros w. apply R_refl. Qed.

Lemma stable_Date_now : stable Date_now.
Proof. intros w. apply R_refl. Qed.

Lemma stable_bind {A B} (m : M A) (k : A -> M B) :
  stable m -> (forall a, stable (k a)) -> stable (bind m k).
Proof.
  intros Hm Hk w. unfold bind. specialize (Hm w).
  destruct (m w) as [[e | a] w']; cbn in *; [assumption |].
  eapply R_trans; [eassumption | apply Hk].
Qed.

Lemma stable_try {A} (m : M A) : stable m -> stable (try m).
Proof. intros Hm w. unfold try. specialize (Hm w). now destruct (m w). Qed.

Lemma stable_prop v k : stable (prop v k).
Proof. apply stable_lift. Qed.

Lemma stable_interp v : stable (interp v).
Proof. apply stable_lift. Qed.

Lemma stable_field v k : stable (field v k).
Proof. apply stable_bind; [apply stable_prop | intros; apply stable_interp]. Qed.

Hypothesis R_emit : forall e, stable (emit e).

Lemma stable_handler h arg : stable (run h arg).
Proof.
  destruct h; cbn [run];
    unfold handleCheckoutSessionCompleted, handlePaymentIntentSucceeded,
      handlePaymentIntentFailed, handleSubscriptionCreated,
      handleSubscriptionUpdated, handleSubscriptionDeleted,
      handleInvoicePaymentSucceeded, handleInvoicePaymentFailed,
      console_log, console_error;
    repeat first
      [ apply stable_field | apply stable_prop | apply stable_interp
      | apply stable_lift | apply stable_Date_now | apply stable_ret
      | apply stable_throw | apply R_emit | apply stable_try
      | apply stable_bind; [| intros ?]
      | match goal with
        | |- stable (match ?r with inl _ => _ | inr _ => _ end) => destruct r
        end ].
Qed.

Lemma stable_unhandled event : stable (unhandled event).
Proof.
  apply stable_bind; [apply stable_field | intros; apply R_emit].
Qed.

Hypothesis R_invoke : forall h arg w, R w (called (Invoke h arg) w).

Lemma stable_invoke h arg : stable (invoke h arg).
Proof.
  intros w. unfold invoke.
  eapply R_trans; [apply (R_invoke h arg) | apply stable_handler].
Qed.

Lemma stable_call h event : stable (call h event).
Proof.
  unfold call. apply stable_bind; [apply stable_prop | intros data].
  apply stable_bind; [apply stable_prop | intros object].
  apply stable_invoke.
Qed.

Lemma stable_fall cs dflt :
  Forall (fun c => stable (body c)) cs -> stable dflt -> stable (fall cs dflt).
Proof.
  intros Hcs Hd. induction Hcs as [| c cs Hc _ IH]; [assumption |].
  cbn [fall]. apply stable_bind; [assumption |].
  intros _. destruct (breaks c); [apply stable_ret | assumption].
Qed.

Lemma stable_switch v cs dflt :
  Forall (fun c => stable (body c)) cs -> stable dflt -> stable (switch v cs dflt).
Proof.
  intros Hcs Hd. induction Hcs as [| c cs Hc Hcs IH]; [assumption |].
  cbn [switch]. destruct (JS.strictEqStr v (label c)); [| assumption].
  apply stable_fall; [now constructor | assumption].
Qed.

Lemma stable_dispatch event : stable (dispatch event).
Proof.
  unfold dispatch. apply stable_bind; [apply stable_prop |].
  intros ty. apply stable_switch; [| apply stable_unhandled].
  unfold clauses, table. cbn [map]. repeat constructor; apply stable_call.
Qed.

Lemma stable_handleEvent event : stable (handleEvent event).
Proof.
  unfold handleEvent.
  apply stable_bind; [apply stable_try, stable_dispatch | intros [error | []]].
  - apply stable_bind; [apply stable_field | intros ty].
    apply stable_bind; [apply R_emit | intros; apply stable_ret].
  - apply stable_ret.
Qed.

End Stable.

Lemma logsOnly_refl w : logsOnly w w.
Proof. repeat split. exists []. now rewrite app_nil_r. Qed.

Lemma logsOnly_trans w1 w2 w3 : logsOnly w1 w2 -> logsOnly w2 w3 -> logsOnly w1 w3.
Proof.
  intros (Hs & Hc & Hk & o & Ho) (Hs' & Hc' & Hk' & o' & Ho').
  repeat split; try congruence.
  exists (o ++ o'). rewrite Ho', Ho. now rewrite <- app_assoc.
Qed.

Lemma logsOnly_emit e : stable logsOnly (emit e).
Proof. intros w. repeat split. now exists [e]. Qed.

Lemma handler_logsOnly h arg w : logsOnly w (snd (run h arg w)).
Proof.
  apply (stable_handler logsOnly logsOnly_refl logsOnly_trans logsOnly_emit).
Qed.

Lemma unhandled_logsOnly event w : logsOnly w (snd (unhandled event w)).
Proof.
  apply (stable_unhandled logsOnly logsOnly_refl logsOnly_trans logsOnly_emit).
Qed.

(** ** The two stages of the route *)

Lemma handleEvent_cases event ty w :
  fst (field event "type" (blank 0)) = inr ty ->
  handleEvent event w =
  match dispatch event w with
  | (inr _, w') => (inr acknowledged, w')
  | (inl error, w') =>
      (inr failed,
       logged (mkEntry Stderr
                 [Text ("❌ Error handling webhook event " +:+ ty +:+ ":"); Err error]) w')
  end.
Proof.
  intros Hty. unfold handleEvent, try. unfold bind at 1.
  destruct (dispatch event w) as [[error | []] w']; [| reflexivity].
  unfold bind at 1. rewrite field_pure, Hty. reflexivity.
Qed.

Section RouteFacts.

Variable constructEvent :
  Body -> option string -> option string -> Z -> JS.Error + JS.Value.
Variable env : gmap string string.

Lemma verify_cases req w :
  verify constructEvent env req w =
  let sig := headers req !! "stripe-signature" in
  let secret := env !! "STRIPE_WEBHOOK_SECRET" in
  let w0 := called (Verify (reqBody req) sig secret) w in
  match constructEvent (reqBody req) sig secret (clock w) with
  | inl err => (inl err, w0)
  | inr event =>
      match fst (field event "type" (blank 0)) with
      | inl err => (inl err, w0)
      | inr ty =>
          (inr event,
           logged (mkEntry Stdout [Text ("✅ Webhook signature verified: " +:+ ty)]) w0)
      end
  end.
Proof.
  unfold verify, construct. cbn zeta.
  unfold bind at 1.
  destruct (constructEvent _ _ _ _) as [err | event]; [reflexivity |].
  unfold bind at 1. rewrite field_pure.
  destruct (fst (field event "type" (blank 0))); reflexivity.
Qed.

Lemma stripeWebhook_rejects req w err w0 :
  verify constructEvent env req w = (inl err, w0) ->
  stripeWebhook constructEvent env req w =
  (inr (rejected (JS.message err)),
   logged (mkEntry Stderr
             [Text ("❌ Webhook signature verification failed: " +:+ JS.message err)]) w0).
Proof.
  intros H. unfold stripeWebhook, try. unfold bind at 1. now rewrite H.
Qed.

Lemma stripeWebhook_verified req w event w1 :
  verify constructEvent env req w = (inr event, w1) ->
  stripeWebhook constructEvent env req w = handleEvent event w1.
Proof.
  intros H. unfold stripeWebhook, try. unfold bind at 1. now rewrite H.
Qed.

Lemma verify_type_printable req w event w1 :
  verify constructEvent env req w = (inr event, w1) ->
  exists ty, fst (field event "type" (blank 0)) = inr ty.
Proof.
  rewrite verify_cases. cbn zeta.
  destruct (constructEvent _ _ _ _) as [err | ev]; [discriminate |].
  destruct (fst (field ev "type" (blank 0))) as [e | ty] eqn:Hty; [discriminate |].
  intros H. injection H as <- _. now exists ty.
Qed.

(** Every request handed to the callback of the route is answered, and
    the answer is one of three: 200 with [{received: true}] when
    verification and dispatch both succeed, 400 with
    ["Webhook Error: " + reason] when the verification stage throws (in
    particular when the verifier rejects the signature), 500 with
    [{error: "Webhook handler failed"}] when the dispatch throws. *)
Lemma callback_three_outcomes (req : Request) (w : World) :
  exists resp w',
    stripeWebhook constructEvent env req w = (inr resp, w') /\
    (resp = mkResponse 200 (Json (JS.Obj [("received", JS.Bool true)])) \/
     (exists reason, resp = mkResponse 400 (Send ("Webhook Error: " +:+ reason))) \/
     resp = mkResponse 500 (Json (JS.Obj [("error", JS.Str "Webhook handler failed")]))) /\
    match verify constructEvent env req w with
    | (inl err, _) => resp = rejected (JS.message err)
    | (inr event, w1) =>
        match dispatch event w1 with
        | (inr _, _) => resp = acknowledged
        | (inl _, _) => resp = failed
        end
    end /\
    match constructEvent (reqBody req) (headers req !! "stripe-signature")
            (env !! "STRIPE_WEBHOOK_SECRET") (clock w) with
    | inl err => resp = rejected (JS.message err)
    | inr _ => True
    end.
Proof.
  destruct (verify constructEvent env req w) as [[err | event] w1] eqn:Hv.
  - eexists _, _. split; [apply (stripeWebhook_rejects _ _ _ _ Hv) |].
    split; [right; left; now eexists |]. split; [reflexivity |].
    rewrite verify_cases in Hv. cbn zeta in Hv.
    destruct (constructEvent _ _ _ _) as [e | ev]; [| exact I].
    now injection Hv as -> _.
  - destruct (verify_type_printable _ _ _ _ Hv) as [ty Hty].
    rewrite (stripeWebhook_verified _ _ _ _ Hv), (handleEvent_cases _ _ _ Hty).
    assert (Hsdk : match constructEvent (reqBody req) (headers req !! "stripe-signature")
                           (env !! "STRIPE_WEBHOOK_SECRET") (clock w) with
                   | inl _ => False | inr _ => True end).
    { rewrite verify_cases in Hv. cbn zeta in Hv.
      now destruct (constructEvent _ _ _ _). }
    destruct (constructEvent _ _ _ _); [destruct Hsdk |].
    destruct (dispatch event w1) as [[error | []] w2]; eexists _, _;
      (split; [reflexivity |]); repeat split; auto.
Qed.

(** C2. When the verifier rejects the signature the route answers 400,
    invokes no handler and leaves the sink as it was: the only trace of
    the request is the route's own line on the error console. *)
Theorem rejected_request_has_no_effect (req : Request) (w : World) (err : JS.Error) :
  constructEvent (reqBody req) (headers req !! "stripe-signature")
    (env !! "STRIPE_WEBHOOK_SECRET") (clock w) = inl err ->
  exists w',
    stripeWebhook constructEvent env req w =
      (inr (mkResponse 400 (Send ("Webhook Error: " +:+ JS.message err))), w') /\
    sink w' = sink w /\
    invoked (calls w') = invoked (calls w) /\
    console w' = console w ++
      [mkEntry Stderr
         [Text ("❌ Webhook signature verification failed: " +:+ JS.message err)]].
Proof.
  intros Hsdk.
  assert (Hv := verify_cases req w). cbn zeta in Hv. rewrite Hsdk in Hv.
  eexists. split; [apply (stripeWebhook_rejects _ _ _ _ Hv) |].
  cbn [logged called sink calls console]. repeat split.
  induction (calls w) as [| [] cs IH]; cbn; [reflexivity | assumption | now f_equal].
Qed.

(** The callback answers a request the verifier rejects with 400 and
    invokes no handler. *)
Lemma callback_rejects req w err :
  constructEvent (reqBody req) (headers req !! "stripe-signature")
    (env !! "STRIPE_WEBHOOK_SECRET") (clock w) = inl err ->
  exists w',
    stripeWebhook constructEvent env req w = (inr (rejected (JS.message err)), w') /\
    invoked (calls w') = invoked (calls w) /\
    sink w' = sink w.
Proof.
  intros Hsdk.
  assert (Hv := verify_cases req w). cbn zeta in Hv. rewrite Hsdk in Hv.
  eexists. split; [apply (stripeWebhook_rejects _ _ _ _ Hv) |].
  cbn [logged called sink calls console]. split; [| reflexivity].
  induction (calls w) as [| [] cs IH]; cbn; [reflexivity | assumption | now f_equal].
Qed.

End RouteFacts.

(** ** Framing: outcomes depend on the clock, writes are appended *)

Lemma framed_blank {A} (m : M A) t :
  framed m -> snd (m (blank t)) =
              mkWorld (console (snd (m (blank t)))) (calls (snd (m (blank t)))) ∅ t.
Proof.
  intros H. specialize (H (blank t)). unfold delta in H. cbn [clock blank] in H.
  destruct (m (blank t)) as [r d]. cbn in *. now injection H.
Qed.

Lemma framed_ret {A} (a : A) : framed (ret a).
Proof. intros w. cbn. now rewrite !app_nil_r, world_eta. Qed.

Lemma framed_throw {A} e : framed (throw (A:=A) e).
Proof. intros w. cbn. now rewrite !app_nil_r, world_eta. Qed.

Lemma framed_lift {A} (r : JS.Error + A) : framed (lift r).
Proof. intros w. cbn. now rewrite !app_nil_r, world_eta. Qed.

Lemma framed_Date_now : framed Date_now.
Proof. intros w. cbn. now rewrite !app_nil_r, world_eta. Qed.

Lemma framed_emit e : framed (emit e).
Proof. intros w. cbn. now rewrite !app_nil_r. Qed.

Lemma framed_called {A} (m : M A) c :
  framed m -> framed (fun w => m (called c w)).
Proof.
  intros Hm w. unfold delta.
  rewrite (Hm (called c w)), (Hm (called c (blank (clock w)))). unfold delta.
  cbn [called clock console calls sink blank].
  destruct (m (blank (clock w))) as [r d]. cbn [app].
  now rewrite <- app_assoc.
Qed.

Lemma framed_bind {A B} (m : M A) (k : A -> M B) :
  framed m -> (forall a, framed (k a)) -> framed (bind m k).
Proof.
  intros Hm Hk w.
  pose proof (framed_blank m (clock w) Hm) as Hd.
  pose proof (Hm w) as Hw. unfold delta in Hw |- *. unfold bind.
  destruct (m (blank (clock w))) as [r d] eqn:Em. cbn [snd] in Hd.
  rewrite Hw. destruct r as [e | a]; [reflexivity |].
  rewrite (Hk a (mkWorld _ _ _ _)), (Hk a d). cbn [clock sink].
  rewrite Hd. cbn [clock sink console calls]. unfold delta.
  destruct (k a (blank (clock w))) as [r2 d2].
  cbn [console calls]. now rewrite <- !app_assoc.
Qed.

Lemma framed_try {A} (m : M A) : framed m -> framed (try m).
Proof.
  intros Hm w. pose proof (Hm w) as Hw. unfold delta in Hw |- *. unfold try.
  rewrite Hw. now destruct (m (blank (clock w))) as [r d].
Qed.

Lemma framed_field v k : framed (field v k).
Proof. apply framed_bind; [apply framed_lift | intros; apply framed_lift]. Qed.

Ltac frame :=
  repeat first
    [ apply framed_field | apply framed_lift | apply framed_Date_now
    | apply framed_ret | apply framed_throw | apply framed_emit
    | apply framed_try
    | apply framed_bind; [| intros ?]
    | match goal with
      | |- framed (match ?r with inl _ => _ | inr _ => _ end) => destruct r
      end ].

Lemma framed_handler h arg : framed (run h arg).
Proof.
  destruct h; cbn [run];
    unfold handleCheckoutSessionCompleted, handlePaymentIntentSucceeded,
      handlePaymentIntentFailed, handleSubscriptionCreated,
      handleSubscriptionUpdated, handleSubscriptionDeleted,
      handleInvoicePaymentSucceeded, handleInvoicePaymentFailed,
      console_log, console_error, prop, interp;
    frame.
Qed.

Lemma framed_call h event : framed (call h event).
Proof.
  unfold call, prop. frame.
  apply (framed_called (run h a0)), framed_handler.
Qed.

Lemma framed_unhandled event : framed (unhandled event).
Proof. unfold unhandled, console_log. frame. Qed.

Lemma framed_fall cs dflt :
  Forall (fun c => framed (body c)) cs -> framed dflt -> framed (fall cs dflt).
Proof.
  intros Hcs Hd. induction Hcs as [| c cs Hc _ IH]; [assumption |].
  cbn [fall]. apply framed_bind; [assumption |].
  intros _. destruct (breaks c); [apply framed_ret | assumption].
Qed.

Lemma framed_switch v cs dflt :
  Forall (fun c => framed (body c)) cs -> framed dflt -> framed (switch v cs dflt).
Proof.
  intros Hcs Hd. induction Hcs as [| c cs Hc Hcs IH]; [assumption |].
  cbn [switch]. destruct (JS.strictEqStr v (label c)); [| assumption].
  apply framed_fall; [now constructor | assumption].
Qed.

Lemma framed_dispatch event : framed (dispatch event).
Proof.
  unfold dispatch, prop. apply framed_bind; [apply framed_lift |].
  intros ty. apply framed_switch; [| apply framed_unhandled].
  unfold clauses, table. cbn [map]. repeat constructor; apply framed_call.
Qed.

(** ** Values that always print *)

Lemma toString_plain : forall v, plain v = true -> exists s, JS.toString v = inr s.
Proof.
  fix IH 1. intros [| | [|] | z | s | items | props] Hp; cbn [JS.toString]; eauto.
  - cbn [plain] in Hp.
    assert (Hgo : exists ss,
      (fix go (l : list JS.Value) : JS.Error + list string :=
         match l with
         | [] => inr []
         | x :: rest =>
             match (match x with
                    | JS.Undefined | JS.Null => inr ""
                    | _ => JS.toString x
                    end) with
             | inl e => inl e
             | inr s => match go rest with
                        | inl e => inl e
                        | inr ss => inr (s :: ss)
                        end
             end
         end) items = inr ss).
    { induction items as [| x rest IHrest]; [now eexists |].
      cbn [forallb] in Hp. apply andb_prop in Hp as [Hx Hrest].
      destruct (IHrest Hrest) as [ss Hss]. rewrite Hss.
      destruct (IH x Hx) as [s Hs].
      destruct x; try rewrite Hs; eauto. }
    destruct Hgo as [ss ->]. eauto.
  - cbn [plain] in Hp. apply andb_prop in Hp as [Hown _].
    apply negb_true_iff in Hown. rewrite Hown. eauto.
Qed.

Lemma plain_lookup props k :
  plain (JS.Obj props) = true -> plain (default JS.Undefined (JS.lookup k props)) = true.
Proof.
  cbn [plain]. intros Hp. apply andb_prop in Hp as [_ Hp].
  induction props as [| [k' v] rest IH]; [reflexivity |].
  cbn [forallb snd] in Hp. apply andb_prop in Hp as [Hv Hrest].
  cbn [JS.lookup]. destruct (String.eqb k k'); [exact Hv | now apply IH].
Qed.

Lemma field_plain props k w :
  plain (JS.Obj props) = true -> exists s, field (JS.Obj props) k w = (inr s, w).
Proof.
  intros Hp. destruct (toString_plain _ (plain_lookup props k Hp)) as [s Hs].
  exists s. now apply (field_ok _ _ (default JS.Undefined (JS.lookup k props))).
Qed.

Lemma getOpt_plain v k :
  plain v = true -> exists x, JS.getOpt v k = inr x /\ plain x = true.
Proof.
  intros Hp. destruct v; cbn [JS.getOpt JS.get]; eauto.
  eexists. split; [reflexivity | now apply plain_lookup].
Qed.

Ltac read_field Hp :=
  match goal with
  | |- context [bind (field (JS.Obj ?props) ?k) ?f ?w] =>
      let s := fresh "s" in
      let H := fresh "H" in
      destruct (field_plain props k w Hp) as [s H];
      rewrite (bind_ok _ _ _ _ _ H); clear H
  end.

Ltac log_line :=
  match goal with
  | |- context [bind (console_log ?a) ?f ?w] =>
      change (bind (console_log a) f w)
        with (f tt (logged (mkEntry Stdout a) w)); cbv beta
  end.

(** On an object payload in which nothing shadows [toString], every
    handler returns normally. *)
Lemma handler_returns h props w :
  plain (JS.Obj props) = true -> fst (run h (JS.Obj props) w) = inr tt.
Proof.
  intros Hp.
  destruct h; cbn [run];
    unfold handleCheckoutSessionCompleted, handlePaymentIntentSucceeded,
      handlePaymentIntentFailed, handleSubscriptionCreated,
      handleSubscriptionUpdated, handleSubscriptionDeleted,
      handleInvoicePaymentSucceeded, handleInvoicePaymentFailed;
    repeat first [read_field Hp | log_line]; try reflexivity.
  destruct (getOpt_plain _ "message" (plain_lookup props "last_payment_error" Hp))
    as (x & Hx & Hpx).
  destruct (toString_plain x Hpx) as [s' Hs'].
  unfold prop, interp, lift, bind, console_log, emit. cbn [JS.get].
  now rewrite Hx, Hs'.
Qed.

(** ** Dispatch *)

Lemma invoked_app cs cs' : invoked (cs ++ cs') = invoked cs ++ invoked cs'.
Proof.
  induction cs as [| [] cs IH]; cbn; [reflexivity | assumption | now f_equal].
Qed.

Lemma call_run h event data arg w :
  JS.get event "data" = inr data -> JS.get data "object" = inr arg ->
  call h event w = run h arg (called (Invoke h arg) w).
Proof.
  intros Hd Ho. unfold call, prop, lift, bind. now rewrite Hd, Ho.
Qed.

(** C6. For an envelope (its [type] and [data.object] can be read) the
    dispatcher invokes the handler registered for the type, once, or runs
    the default clause and invokes none. The outcome of the dispatch is
    the outcome of that handler and the world it leaves is the world the
    handler left: when the handler throws, the route answers 500 and
    adds one line to what the handler had already written. *)
Theorem dispatch_invokes_one_handler
    (event ty data arg : JS.Value) (s : string) (w : World) :
  JS.get event "type" = inr ty ->
  JS.toString ty = inr s ->
  JS.get event "data" = inr data ->
  JS.get data "object" = inr arg ->
  match handlerFor ty with
  | Some h =>
      let '(r, w') := run h arg (called (Invoke h arg) w) in
      dispatch event w = (r, w') /\
      invoked (calls w') = invoked (calls w) ++ [(h, arg)] /\
      sink w' = sink w /\
      (exists out, console w' = console w ++ out) /\
      handleEvent event w =
        match r with
        | inr _ => (inr acknowledged, w')
        | inl error =>
            (inr failed,
             logged (mkEntry Stderr
                       [Text ("❌ Error handling webhook event " +:+ s +:+ ":");
                        Err error]) w')
        end
  | None =>
      dispatch event w = unhandled event w /\
      invoked (calls (snd (dispatch event w))) = invoked (calls w)
  end.
Proof.
  intros Hty Hs Hd Ho.
  pose proof (dispatch_handlerFor event ty w Hty) as Hdisp.
  destruct (handlerFor ty) as [h |].
  - rewrite (call_run _ _ _ _ _ Hd Ho) in Hdisp.
    pose proof (handler_logsOnly h arg (called (Invoke h arg) w)) as (Hsink & _ & Hcalls & Hout).
    assert (Hev := handleEvent_cases event s w). rewrite Hdisp in Hev.
    destruct (run h arg (called (Invoke h arg) w)) as [r w']. cbn [snd] in *.
    split; [assumption |]. split.
    { rewrite Hcalls. cbn [called calls]. now rewrite invoked_app. }
    split; [assumption |]. split; [assumption |].
    rewrite Hev by (now rewrite (field_ok _ _ _ _ _ Hty Hs)).
    now destruct r as [error | []].
  - split; [assumption |]. rewrite Hdisp.
    now destruct (unhandled_logsOnly event w) as (_ & _ & -> & _).
Qed.

Section Verified.

Variable constructEvent :
  Body -> option string -> option string -> Z -> JS.Error + JS.Value.
Variable env : gmap string string.

Lemma verify_accepts req w event ty s :
  constructEvent (reqBody req) (headers req !! "stripe-signature")
    (env !! "STRIPE_WEBHOOK_SECRET") (clock w) = inr event ->
  JS.get event "type" = inr ty ->
  JS.toString ty = inr s ->
  stripeWebhook constructEvent env req w =
  handleEvent event
    (logged (mkEntry Stdout [Text ("✅ Webhook signature verified: " +:+ s)])
       (called (Verify (reqBody req) (headers req !! "stripe-signature")
                  (env !! "STRIPE_WEBHOOK_SECRET")) w)).
Proof.
  intros Hsdk Hty Hs. apply stripeWebhook_verified.
  rewrite verify_cases. cbn zeta. rewrite Hsdk.
  now rewrite (field_ok _ _ _ _ (blank 0) Hty Hs).
Qed.

Lemma default_clause req w event ty s :
  constructEvent (reqBody req) (headers req !! "stripe-signature")
    (env !! "STRIPE_WEBHOOK_SECRET") (clock w) = inr event ->
  JS.get event "type" = inr ty ->
  JS.toString ty = inr s ->
  handlerFor ty = None ->
  exists w',
    stripeWebhook constructEvent env req w = (inr acknowledged, w') /\
    sink w' = sink w /\
    invoked (calls w') = invoked (calls w) /\
    console w' = console w ++
      [mkEntry Stdout [Text ("✅ Webhook signature verified: " +:+ s)];
       mkEntry Stdout [Text ("🔔 Unhandled event type: " +:+ s)]].
Proof.
  intros Hsdk Hty Hs Hnone.
  rewrite (verify_accepts _ _ _ _ _ Hsdk Hty Hs).
  rewrite (handleEvent_cases _ s) by (now rewrite (field_ok _ _ _ _ _ Hty Hs)).
  rewrite (dispatch_handlerFor _ _ _ Hty), Hnone.
  unfold unhandled. rewrite (bind_ok _ _ _ _ _ (field_ok _ _ _ _ _ Hty Hs)).
  cbn. eexists. split; [reflexivity |]. cbn.
  rewrite invoked_app, app_nil_r, <- app_assoc. now repeat split.
Qed.

(** C5. A verified event whose type has no registered handler runs the
    default clause: the answer is 200 [{received: true}], no handler is
    invoked, the sink is as it was, and the console gains the route's
    line and the line of the default clause. *)
Theorem unrecognized_type_is_acknowledged
    (req : Request) (w : World) (event ty : JS.Value) (s : string) :
  constructEvent (reqBody req) (headers req !! "stripe-signature")
    (env !! "STRIPE_WEBHOOK_SECRET") (clock w) = inr event ->
  JS.get event "type" = inr ty ->
  JS.toString ty = inr s ->
  handlerFor ty = None ->
  exists w',
    stripeWebhook constructEvent env req w =
      (inr (mkResponse 200 (Json (JS.Obj [("received", JS.Bool true)]))), w') /\
    sink w' = sink w /\
    invoked (calls w') = invoked (calls w) /\
    console w' = console w ++
      [mkEntry Stdout [Text ("✅ Webhook signature verified: " +:+ s)];
       mkEntry Stdout [Text ("🔔 Unhandled event type: " +:+ s)]].
Proof. apply default_clause. Qed.

(** C4, as the code has it. A verified [payment_intent.succeeded] event
    with payload [{id: "pi_1", amount: 5000, currency: "usd"}] is
    answered 200 [{received: true}]; its handler is invoked once and
    writes the success of [pi_1] and the amount to the console; the sink
    is left as it was. *)
Theorem payment_intent_succeeded_logged
    (req : Request) (w : World) (event data : JS.Value) :
  constructEvent (reqBody req) (headers req !! "stripe-signature")
    (env !! "STRIPE_WEBHOOK_SECRET") (clock w) = inr event ->
  JS.get event "type" = inr (JS.Str "payment_intent.succeeded") ->
  JS.get event "data" = inr data ->
  JS.get data "object" =
    inr (JS.Obj [("id", JS.Str "pi_1"); ("amount", JS.Num 5000);
                 ("currency", JS.Str "usd")]) ->
  exists w',
    stripeWebhook constructEvent env req w =
      (inr (mkResponse 200 (Json (JS.Obj [("received", JS.Bool true)]))), w') /\
    console w' = console w ++
      [mkEntry Stdout [Text "✅ Webhook signature verified: payment_intent.succeeded"];
       mkEntry Stdout [Text "✅ Payment intent succeeded: pi_1"];
       mkEntry Stdout [Text "💵 Amount: 5000 usd"]] /\
    invoked (calls w') = invoked (calls w) ++
      [(PaymentIntentSucceeded,
        JS.Obj [("id", JS.Str "pi_1"); ("amount", JS.Num 5000);
                ("currency", JS.Str "usd")])] /\
    sink w' = sink w.
Proof.
  intros Hsdk Hty Hd Ho.
  rewrite (verify_accepts _ _ _ _ _ Hsdk Hty eq_refl).
  rewrite (handleEvent_cases _ "payment_intent.succeeded")
    by (now rewrite (field_ok _ _ _ _ _ Hty eq_refl)).
  rewrite (dispatch_handlerFor _ _ _ Hty). cbn [handlerFor table find].
  change (String.eqb "payment_intent.succeeded" "checkout.session.completed") with false.
  change (String.eqb "payment_intent.succeeded" "payment_intent.succeeded") with true.
  cbv iota. rewrite (call_run _ _ _ _ _ Hd Ho).
  cbn. eexists. split; [reflexivity |]. cbn.
  rewrite !invoked_app, app_nil_r, <- !app_assoc. now repeat split.
Qed.

(** C9, as the code has it. Every handler only writes to the console,
    and throws when its argument is [null] or [undefined]. A verified
    event is answered 200 [{received: true}] when its type has no
    registered handler, or when its [data.object] is an object in which
    nothing shadows [toString]; the sink is left as it was. *)
Theorem verified_plain_event_is_acknowledged
    (req : Request) (w : World) (event ty : JS.Value) (s : string) :
  constructEvent (reqBody req) (headers req !! "stripe-signature")
    (env !! "STRIPE_WEBHOOK_SECRET") (clock w) = inr event ->
  JS.get event "type" = inr ty ->
  JS.toString ty = inr s ->
  (handlerFor ty = None \/
   exists data props,
     JS.get event "data" = inr data /\
     JS.get data "object" = inr (JS.Obj props) /\
     plain (JS.Obj props) = true) ->
  (forall h arg w0, logsOnly w0 (snd (run h arg w0))) /\
  (forall h w0,
     fst (run h JS.Null w0) =
       inl (JS.TypeError "Cannot read properties of null (reading 'id')") /\
     fst (run h JS.Undefined w0) =
       inl (JS.TypeError "Cannot read properties of undefined (reading 'id')")) /\
  exists w',
    stripeWebhook constructEvent env req w =
      (inr (mkResponse 200 (Json (JS.Obj [("received", JS.Bool true)]))), w') /\
    sink w' = sink w /\
    exists out, console w' = console w ++ out.
Proof.
  intros Hsdk Hty Hs Hshape. split; [apply handler_logsOnly |].
  split; [intros [] w0; split; reflexivity |].
  destruct (handlerFor ty) as [h |] eqn:Hh.
  - destruct Hshape as [Hnone | (data & props & Hd & Ho & Hp)]; [discriminate |].
    rewrite (verify_accepts _ _ _ _ _ Hsdk Hty Hs).
    rewrite (handleEvent_cases _ s) by (now rewrite (field_ok _ _ _ _ _ Hty Hs)).
    rewrite (dispatch_handlerFor _ _ _ Hty), Hh, (call_run _ _ _ _ _ Hd Ho).
    match goal with |- context [run h ?a ?w0] =>
      pose proof (handler_returns h props w0 Hp) as Hr;
      pose proof (handler_logsOnly h a w0) as (Hsink & _ & _ & out & Hout);
      destruct (run h a w0) as [r w']
    end.
    cbn [fst snd] in *. subst r. eexists. split; [reflexivity |].
    split; [exact Hsink |]. eexists. rewrite Hout. cbn.
    now rewrite <- app_assoc.
  - destruct (default_clause req w event ty s Hsdk Hty Hs Hh)
      as (w' & Hw & Hsink & _ & Hcon).
    exists w'. split; [assumption |]. split; [assumption |]. eauto.
Qed.

End Verified.

Lemma verified_app cs cs' : verified (cs ++ cs') = verified cs ++ verified cs'.
Proof.
  induction cs as [| [] cs IH]; cbn; [reflexivity | now f_equal | assumption].
Qed.

Lemma invokesOnly_refl w : invokesOnly w w.
Proof. repeat split. exists []. now rewrite app_nil_r. Qed.

Lemma invokesOnly_trans w1 w2 w3 :
  invokesOnly w1 w2 -> invokesOnly w2 w3 -> invokesOnly w1 w3.
Proof.
  intros (Hs & Hc & Hk & o & Ho) (Hs' & Hc' & Hk' & o' & Ho').
  repeat split; try congruence.
  exists (o ++ o'). rewrite Ho', Ho. now rewrite <- app_assoc.
Qed.

Lemma handleEvent_invokesOnly event w : invokesOnly w (snd (handleEvent event w)).
Proof.
  apply (stable_handleEvent invokesOnly invokesOnly_refl invokesOnly_trans).
  - intros e w0. repeat split. now exists [e].
  - intros h arg w0. repeat split; cbn.
    + now rewrite verified_app, app_nil_r.
    + exists []. now rewrite app_nil_r.
Qed.

(** ** Handlers that do not read the clock *)

Lemma timeless_ret {A} (a : A) : timeless (ret a).
Proof. now intros w t. Qed.

Lemma timeless_lift {A} (r : JS.Error + A) : timeless (lift r).
Proof. now intros w t. Qed.

Lemma timeless_emit e : timeless (emit e).
Proof. now intros w t. Qed.

Lemma timeless_bind {A B} (m : M A) (k : A -> M B) :
  timeless m -> (forall a, timeless (k a)) -> timeless (bind m k).
Proof.
  intros Hm Hk w t. unfold bind. rewrite (Hm w t).
  destruct (m w) as [[e | a] w']; cbn [fst snd]; [reflexivity |].
  now rewrite (Hk a w' t).
Qed.

Lemma timeless_field v k : timeless (field v k).
Proof. apply timeless_bind; [apply timeless_lift | intros; apply timeless_lift]. Qed.

Lemma timeless_handler h arg :
  h <> CheckoutSessionCompleted -> timeless (run h arg).
Proof.
  intros Hh. destruct h; [contradiction | ..]; cbn [run];
    unfold handlePaymentIntentSucceeded,
      handlePaymentIntentFailed, handleSubscriptionCreated,
      handleSubscriptionUpdated, handleSubscriptionDeleted,
      handleInvoicePaymentSucceeded, handleInvoicePaymentFailed,
      console_log, prop, interp;
    repeat first
      [ apply timeless_field | apply timeless_lift | apply timeless_emit
      | apply timeless_ret | apply timeless_bind; [| intros ?] ].
Qed.

Lemma timeless_call h event :
  h <> CheckoutSessionCompleted -> timeless (call h event).
Proof.
  intros Hh. unfold call, prop.
  repeat first [ apply timeless_lift | apply timeless_bind; [| intros ?] ].
  intros w t. apply (timeless_handler h _ Hh (called (Invoke h _) w) t).
Qed.

Lemma timeless_unhandled event : timeless (unhandled event).
Proof.
  unfold unhandled, console_log.
  apply timeless_bind; [apply timeless_field | intros; apply timeless_emit].
Qed.

Lemma timeless_output {A} (m : M A) t1 t2 :
  timeless m -> output m t2 = output m t1.
Proof.
  intros Hm. unfold output.
  change (blank t2) with (at_time t2 (blank t1)). rewrite (Hm (blank t1) t2).
  reflexivity.
Qed.

Lemma framed_console {A} (m : M A) w :
  framed m -> console (snd (m w)) = console w ++ output m (clock w).
Proof.
  intros Hm. rewrite (Hm w). unfold delta, output.
  now destruct (m (blank (clock w))).
Qed.

Lemma framed_sink {A} (m : M A) w : framed m -> sink (snd (m w)) = sink w.
Proof.
  intros Hm. rewrite (Hm w). unfold delta.
  now destruct (m (blank (clock w))).
Qed.

Lemma framed_clock {A} (m : M A) w : framed m -> clock (snd (m w)) = clock w.
Proof.
  intros Hm. rewrite (Hm w). unfold delta.
  now destruct (m (blank (clock w))).
Qed.

(** ** Redelivery *)

Lemma output_dispatch event ty t :
  JS.get event "type" = inr ty ->
  output (dispatch event) t =
  match handlerFor ty with
  | Some h => output (call h event) t
  | None => output (unhandled event) t
  end.
Proof.
  intros Hty. unfold output. rewrite (dispatch_handlerFor _ _ _ Hty).
  now destruct (handlerFor ty).
Qed.

(** C3, as the code has it. Delivering the same envelope twice runs the
    dispatch twice: the console gains the output of a delivery once per
    delivery and the sink is left as it was. For every type other than
    [checkout.session.completed] the two outputs are the same; for that
    type each delivery builds and logs its own payment record, and two
    deliveries differ in the [timestamp] of that record, which is the
    time of the delivery. *)
Theorem redelivery_repeats_output (event ty : JS.Value) (w : World) (t1 t2 : Z) :
  JS.get event "type" = inr ty ->
  console (snd (dispatch event (at_time t1 w))) =
    console w ++ output (dispatch event) t1 /\
  console (snd (dispatch event (at_time t2 (snd (dispatch event (at_time t1 w)))))) =
    console w ++ output (dispatch event) t1 ++ output (dispatch event) t2 /\
  sink (snd (dispatch event (at_time t2 (snd (dispatch event (at_time t1 w)))))) =
    sink w /\
  (handlerFor ty <> Some CheckoutSessionCompleted ->
   output (dispatch event) t2 = output (dispatch event) t1) /\
  (handlerFor ty = Some CheckoutSessionCompleted ->
   forall data props,
     JS.get event "data" = inr data ->
     JS.get data "object" = inr (JS.Obj props) ->
     plain (JS.Obj props) = true ->
     exists common, forall t,
       output (dispatch event) t = common ++
         [mkEntry Stdout
            [Text "📝 Payment record created:";
             Val (JS.Obj [
               ("sessionId", default JS.Undefined (JS.lookup "id" props));
               ("customerEmail", default JS.Undefined (JS.lookup "customer_email" props));
               ("amount", default JS.Undefined (JS.lookup "amount_total" props));
               ("currency", default JS.Undefined (JS.lookup "currency" props));
               ("status", JS.Str "completed");
               ("metadata", default JS.Undefined (JS.lookup "metadata" props));
               ("timestamp", JS.Str (Date.toISOString t)) ])]]).
Proof.
  intros Hty.
  pose proof (framed_dispatch event) as Hf.
  assert (Honce : console (snd (dispatch event (at_time t1 w))) =
                  console w ++ output (dispatch event) t1)
    by (now rewrite (framed_console _ _ Hf)).
  split; [assumption |]. split.
  { rewrite (framed_console _ _ Hf). cbn [at_time console clock].
    now rewrite Honce, <- app_assoc. }
  split.
  { rewrite (framed_sink _ _ Hf). cbn [at_time sink].
    now rewrite (framed_sink _ _ Hf). }
  split.
  - intros Hh. rewrite !(output_dispatch _ _ _ Hty).
    destruct (handlerFor ty) as [h |].
    + apply timeless_output, timeless_call. congruence.
    + apply timeless_output, timeless_unhandled.
  - intros Hh data props Hd Ho Hp.
    destruct (toString_plain _ (plain_lookup props "id" Hp)) as [s1 H1].
    destruct (toString_plain _ (plain_lookup props "customer_email" Hp)) as [s2 H2].
    destruct (toString_plain _ (plain_lookup props "amount_total" Hp)) as [s3 H3].
    destruct (toString_plain _ (plain_lookup props "currency" Hp)) as [s4 H4].
    eexists. intros t.
    rewrite (output_dispatch _ _ _ Hty), Hh. unfold output.
    rewrite (call_run _ _ _ _ _ Hd Ho). cbn [run].
    unfold handleCheckoutSessionCompleted.
    rewrite (bind_ok _ _ _ _ _ (field_obj _ _ _ _ H1)). log_line.
    rewrite (bind_ok _ _ _ _ _ (field_obj _ _ _ _ H2)). log_line.
    rewrite (bind_ok _ _ _ _ _ (field_obj _ _ _ _ H3)).
    rewrite (bind_ok _ _ _ _ _ (field_obj _ _ _ _ H4)). log_line.
    unfold prop, lift, bind, try, console_log, emit, Date_now, ret.
    cbn [JS.get fst snd console calls sink clock logged called blank app].
    reflexivity.
Qed.

(** ** The route inside the application *)

Section Pipeline.

Variable constructEvent :
  Body -> option string -> option string -> Z -> JS.Error + JS.Value.
Variable env : gmap string string.
Variable lib : Http.
Variable downstream : Request -> M Response.

Lemma stripeWebhook_verifier_call req w :
  verified (calls (snd (stripeWebhook constructEvent env req w))) =
  verified (calls w) ++ [reqBody req].
Proof.
  destruct (verify constructEvent env req w) as [[err | event] w1] eqn:Hv.
  - rewrite (stripeWebhook_rejects _ _ _ _ _ _ Hv). cbn [snd logged calls].
    rewrite verify_cases in Hv. cbn zeta in Hv.
    destruct (constructEvent _ _ _ _) as [e | ev].
    + injection Hv as _ <-. cbn. now rewrite verified_app.
    + destruct (fst (field ev "type" (blank 0))); [| discriminate].
      injection Hv as _ <-. cbn. now rewrite verified_app.
  - rewrite (stripeWebhook_verified _ _ _ _ _ _ Hv).
    destruct (handleEvent_invokesOnly event w1) as (_ & _ & -> & _).
    rewrite verify_cases in Hv. cbn zeta in Hv.
    destruct (constructEvent _ _ _ _) as [e | ev]; [discriminate |].
    destruct (fst (field ev "type" (blank 0))); [discriminate |].
    injection Hv as _ <-. cbn. now rewrite verified_app.
Qed.

Lemma chain_next (l : Layer) rest (last : Request -> M Response) req w req' w' :
  l req w = (inr (Next req'), w') ->
  chain env (l :: rest) last req w = chain env rest last req' w'.
Proof. intros H. cbn [chain]. now rewrite (bind_ok _ _ _ _ _ H). Qed.

Lemma chain_done (l : Layer) rest (last : Request -> M Response) req w resp w' :
  l req w = (inr (Done resp), w') ->
  chain env (l :: rest) last req w = (inr resp, w').
Proof. intros H. cbn [chain]. now rewrite (bind_ok _ _ _ _ _ H). Qed.

Lemma chain_fail (l : Layer) rest (last : Request -> M Response) req w err w' :
  l req w = (inr (Fail err), w') ->
  chain env (l :: rest) last req w = errorHandler env err w'.
Proof. intros H. cbn [chain]. now rewrite (bind_ok _ _ _ _ _ H). Qed.

Lemma morgan_logs (inner : Request -> M Response) req w resp w' :
  inner req w = (inr resp, w') ->
  morgan lib inner req w = (inr resp, accessLogged lib req resp w').
Proof. intros H. unfold morgan. now rewrite (bind_ok _ _ _ _ _ H). Qed.

(** A request that is not a preflight runs through the layers mounted
    after the access log, and its answer is logged. *)
Lemma stack_runs layers req w resp w' :
  String.eqb (method req) "OPTIONS" = false ->
  chain env layers downstream req w = (inr resp, w') ->
  stack env lib downstream layers req w =
  (inr (sent lib req resp), accessLogged lib req (sent lib req resp) w').
Proof.
  intros Hm H. unfold stack.
  rewrite (chain_next helmet _ _ req w req w) by reflexivity.
  rewrite (chain_next cors _ _ req w req w) by (unfold cors; now rewrite Hm).
  cbn [chain]. apply morgan_logs. now rewrite (bind_ok _ _ _ _ _ H).
Qed.

Lemma raw_not_done type req resp : raw lib type req <> Done resp.
Proof.
  unfold raw, read.
  destruct (reqBody req); try discriminate;
    (destruct (typeis lib req type); [| discriminate]);
    (destruct (contentstream req); [discriminate |]);
    (destruct (getBody lib _ _ _); discriminate).
Qed.

Lemma contentstream_identity req :
  headers req !! "content-encoding" = None ->
  contentstream req = inr (Identity (entity req)).
Proof. intros He. unfold contentstream. now rewrite He. Qed.

(** The raw parser reads a JSON entity in identity encoding into a
    [Buffer] of its bytes, unless it is over the limit. *)
Lemma raw_reads req :
  reqBody req = Unread -> typeis lib req "application/json" = true ->
  headers req !! "content-encoding" = None ->
  raw lib "application/json" req =
  if Z.of_nat (length (entity req)) >? rawLimit
  then Fail tooLarge
  else Next (withBody req (Buffer (entity req))).
Proof.
  intros Hb Ht He. unfold raw, read.
  rewrite Hb, Ht, (contentstream_identity _ He). cbn [getBody].
  now destruct (_ >? _).
Qed.

(** A compressed entity is inflated first. *)
Lemma raw_inflates req :
  reqBody req = Unread -> typeis lib req "application/json" = true ->
  headers req !! "content-encoding" = Some "gzip" ->
  raw lib "application/json" req =
  match inflate lib "gzip" rawLimit (entity req) with
  | inr bytes => Next (withBody req (Buffer bytes))
  | inl err => Fail err
  end.
Proof.
  intros Hb Ht He. unfold raw, read. rewrite Hb, Ht.
  assert (contentstream req = inr (Compressed "gzip" (entity req))) as ->
    by (unfold contentstream; now rewrite He).
  cbn [getBody]. now destruct (inflate lib "gzip" rawLimit (entity req)).
Qed.

Lemma raw_skips req :
  reqBody req = Unread -> typeis lib req "application/json" = false ->
  raw lib "application/json" req = Next (withBody req Skipped).
Proof. intros Hb Ht. unfold raw. now rewrite Hb, Ht. Qed.

(** The raw parser never leaves a parsed value in [req.body]. *)
Lemma raw_never_parses req req' v :
  reqBody req = Unread -> raw lib "application/json" req = Next req' ->
  reqBody req' <> Parsed v.
Proof.
  intros Hb. unfold raw, read. rewrite Hb.
  destruct (typeis lib req "application/json"); [| intros [= <-]; discriminate].
  destruct (contentstream req); [discriminate |].
  destruct (getBody lib _ _ _); [discriminate |].
  intros [= <-]. discriminate.
Qed.

Lemma errorHandler_run err w :
  errorHandler env err w =
  (inr (internalError (if isString (env !! "NODE_ENV") "development"
                       then JS.message err else "Something went wrong")),
   logged (mkEntry Stderr [Text "Error:"; Err err]) w).
Proof. reflexivity. Qed.

(** The responses of the route and of the error middleware go out as
    they are, unless the request is a [GET] or a [HEAD]. *)
Lemma sent_as_is req resp :
  String.eqb (method req) "GET" = false ->
  String.eqb (method req) "HEAD" = false ->
  status resp = 200 \/ status resp = 400 \/ status resp = 500 ->
  sent lib req resp = resp.
Proof.
  intros Hg Hh Hs. unfold sent. rewrite Hg, Hh. cbn [orb andb].
  destruct resp as [code body]. cbn [status payload] in *.
  now destruct Hs as [-> | [-> | ->]].
Qed.

(** A [POST /webhooks/stripe] in the application: the raw parser, then
    the callback of the route or the error middleware, then the access
    log. *)
Lemma app_webhook req w :
  method req = "POST" -> path req = "/webhooks/stripe" ->
  exists resp w',
    app constructEvent env lib downstream req w =
      (inr resp, accessLogged lib req resp w') /\
    match raw lib "application/json" req with
    | Next req' => stripeWebhook constructEvent env req' w = (inr resp, w')
    | Fail err => errorHandler env err w = (inr resp, w')
    | Done _ => False
    end.
Proof.
  intros Hm Hp.
  assert (Hopt : String.eqb (method req) "OPTIONS" = false) by now rewrite Hm.
  assert (Hget : String.eqb (method req) "GET" = false) by now rewrite Hm.
  assert (Hhead : String.eqb (method req) "HEAD" = false) by now rewrite Hm.
  assert (Hhealth : health env req w = (inr (Next req), w))
    by (unfold health; now rewrite Hm).
  assert (Hhook : webhooks constructEvent env lib req w =
                  match raw lib "application/json" req with
                  | Next req' =>
                      match stripeWebhook constructEvent env req' w with
                      | (inr resp, w') => (inr (Done resp), w')
                      | (inl e, w') => (inl e, w')
                      end
                  | other => (inr other, w)
                  end).
  { unfold webhooks, express_raw. rewrite Hm, Hp.
    change (String.eqb "POST" "POST" && String.eqb "/webhooks/stripe" "/webhooks/stripe")
      with true. cbv iota. unfold bind at 1, ret at 1.
    now destruct (raw lib "application/json" req) as [req' | resp | err]. }
  destruct (raw lib "application/json" req) as [req' | resp | err] eqn:Hraw.
  - destruct (callback_three_outcomes constructEvent env req' w)
      as (resp & w' & Hs & Hshape & _).
    rewrite Hs in Hhook. exists resp, w'. split; [| exact Hs].
    unfold app. rewrite (stack_runs _ _ _ resp w' Hopt).
    + rewrite sent_as_is; [reflexivity | assumption | assumption |].
      destruct Hshape as [-> | [[reason ->] | ->]]; cbn; tauto.
    + rewrite (chain_next (health env) _ _ _ _ _ _ Hhealth).
      now apply chain_done.
  - now destruct (raw_not_done _ _ _ Hraw).
  - eexists _, _. split; [| apply errorHandler_run].
    unfold app. rewrite (stack_runs _ _ _ _ _ Hopt
      (eq_trans (chain_next (health env) _ _ _ _ _ _ Hhealth)
                (eq_trans (chain_fail _ _ _ _ _ _ _ Hhook) (errorHandler_run err w)))).
    rewrite sent_as_is; [reflexivity | assumption | assumption | cbn; tauto].
Qed.

Lemma app_webhook_calls req w :
  method req = "POST" -> path req = "/webhooks/stripe" ->
  calls (snd (app constructEvent env lib downstream req w)) =
  match raw lib "application/json" req with
  | Next req' => calls (snd (stripeWebhook constructEvent env req' w))
  | _ => calls w
  end.
Proof.
  intros Hm Hp. destruct (app_webhook req w Hm Hp) as (resp & w' & -> & Hcase).
  cbn [snd accessLogged logged calls].
  destruct (raw lib "application/json" req) as [req' | resp' | err];
    [now rewrite Hcase | destruct Hcase |].
  rewrite errorHandler_run in Hcase. now injection Hcase as _ <-.
Qed.

(** With the JSON body parser mounted first, the verifier is handed the
    parsed value of a JSON request instead of its bytes. *)
Lemma json_first_hands_parsed_body req w v :
  method req = "POST" -> path req = "/webhooks/stripe" ->
  json lib req = Next (withBody req (Parsed v)) ->
  verified (calls (snd (app_json_first constructEvent env lib downstream req w))) =
  verified (calls w) ++ [Parsed v].
Proof.
  intros Hm Hp Hj.
  assert (Hopt : String.eqb (method req) "OPTIONS" = false) by now rewrite Hm.
  destruct (callback_three_outcomes constructEvent env (withBody req (Parsed v)) w)
    as (resp & w' & Hs & _).
  assert (Hchain :
    chain env [health env; express_json lib; webhooks constructEvent env lib]
      downstream req w = (inr resp, w')).
  { rewrite (chain_next (health env) _ _ req w req w)
      by (unfold health; now rewrite Hm).
    rewrite (chain_next (express_json lib) _ _ req w (withBody req (Parsed v)) w)
      by (unfold express_json, ret; now rewrite Hj).
    apply chain_done. unfold webhooks, express_raw, raw. cbn [method path withBody reqBody].
    rewrite Hm, Hp.
    change (String.eqb "POST" "POST" && String.eqb "/webhooks/stripe" "/webhooks/stripe")
      with true. cbv iota. unfold bind at 1, ret at 1.
    now rewrite (bind_ok _ _ _ _ _ Hs). }
  unfold app_json_first. rewrite (stack_runs _ _ _ _ _ Hopt Hchain).
  cbn [snd accessLogged logged calls].
  change [Parsed v] with [reqBody (withBody req (Parsed v))].
  now rewrite <- (stripeWebhook_verifier_call (withBody req (Parsed v)) w), Hs.
Qed.

(** C1, as the code has it. Every [POST /webhooks/stripe] is answered,
    and the answer is one of four. When [express.raw] hands the request
    to the callback of the route: 200 with [{received: true}] when
    verification and dispatch both succeed, 400 with
    ["Webhook Error: " + reason] when the verification stage throws, 500
    with [{error: "Webhook handler failed"}] when the dispatch throws.
    When [express.raw] cannot read the body (in particular a JSON body of
    more than 102400 bytes): 500 with [{error: "Internal server error",
    message}] from the error middleware of the application. *)
Theorem webhook_four_outcomes (req : Request) (w : World) :
  method req = "POST" -> path req = "/webhooks/stripe" ->
  exists resp w',
    app constructEvent env lib downstream req w = (inr resp, w') /\
    (resp = mkResponse 200 (Json (JS.Obj [("received", JS.Bool true)])) \/
     (exists reason, resp = mkResponse 400 (Send ("Webhook Error: " +:+ reason))) \/
     resp = mkResponse 500 (Json (JS.Obj [("error", JS.Str "Webhook handler failed")])) \/
     (exists message,
        resp = mkResponse 500 (Json (JS.Obj [("error", JS.Str "Internal server error");
                                             ("message", JS.Str message)])))) /\
    match raw lib "application/json" req with
    | Next req' =>
        match verify constructEvent env req' w with
        | (inl err, _) => resp = rejected (JS.message err)
        | (inr event, w1) =>
            match dispatch event w1 with
            | (inr _, _) => resp = acknowledged
            | (inl _, _) => resp = failed
            end
        end
    | Fail err =>
        resp = mkResponse 500 (Json (JS.Obj [
                 ("error", JS.Str "Internal server error");
                 ("message", JS.Str (if isString (env !! "NODE_ENV") "development"
                                     then JS.message err
                                     else "Something went wrong")) ]))
    | Done _ => False
    end /\
    (reqBody req = Unread ->
     typeis lib req "application/json" = true ->
     headers req !! "content-encoding" = None ->
     raw lib "application/json" req =
       if Z.of_nat (length (entity req)) >? 102400
       then Fail (JS.mkError "PayloadTooLargeError" "request entity too large")
       else Next (withBody req (Buffer (entity req)))).
Proof.
  intros Hm Hp. destruct (app_webhook req w Hm Hp) as (resp & w' & Happ & Hcase).
  exists resp, (accessLogged lib req resp w'). split; [exact Happ |].
  destruct (raw lib "application/json" req) as [req' | resp' | err] eqn:Hraw.
  - destruct (callback_three_outcomes constructEvent env req' w)
      as (resp0 & w0 & Hs & Hshape & Hverify & _).
    rewrite Hs in Hcase. injection Hcase as <- <-.
    split; [tauto |]. split; [exact Hverify |].
    intros Hb Ht He. rewrite <- Hraw. now apply raw_reads.
  - destruct Hcase.
  - rewrite errorHandler_run in Hcase. injection Hcase as <- _.
    split; [right; right; right; now eexists |]. split; [reflexivity |].
    intros Hb Ht He. rewrite <- Hraw. now apply raw_reads.
Qed.

(** C7, as the code has it. The verification stage of the route calls
    the verifier once, with [req.body], the [stripe-signature] header and
    the configured secret, at the time of the request; the outcome of the
    stage is the outcome of that call (or the error of printing
    [event.type]), and the stage leaves the sink as it was. In the
    application no JSON parser runs before the route, and what the
    verifier is handed depends on the request: the [Buffer] of the bytes
    received for a JSON request in identity encoding of at most 102400
    bytes; the inflated bytes for a compressed one; the empty object, not
    the body, for a request of another type; nothing at all, the verifier
    not being called, when the body cannot be read. *)
Theorem verifier_call_and_body (req : Request) (w : World) :
  method req = "POST" -> path req = "/webhooks/stripe" -> reqBody req = Unread ->
  (forall (req' : Request) (w0 : World),
     calls (snd (verify constructEvent env req' w0)) =
       calls w0 ++ [Verify (reqBody req') (headers req' !! "stripe-signature")
                      (env !! "STRIPE_WEBHOOK_SECRET")] /\
     sink (snd (verify constructEvent env req' w0)) = sink w0 /\
     fst (verify constructEvent env req' w0) =
       match constructEvent (reqBody req') (headers req' !! "stripe-signature")
               (env !! "STRIPE_WEBHOOK_SECRET") (clock w0) with
       | inl err => inl err
       | inr event =>
           match JS.get event "type" with
           | inl err => inl err
           | inr ty => match JS.toString ty with
                       | inl err => inl err
                       | inr _ => inr event
                       end
           end
       end) /\
  verified (calls (snd (app constructEvent env lib downstream req w))) =
    verified (calls w) ++
    match raw lib "application/json" req with
    | Next req' => [reqBody req']
    | _ => []
    end /\
  (forall req' v, raw lib "application/json" req = Next req' -> reqBody req' <> Parsed v) /\
  (typeis lib req "application/json" = false ->
   raw lib "application/json" req = Next (withBody req Skipped)) /\
  (typeis lib req "application/json" = true ->
   headers req !! "content-encoding" = None ->
   raw lib "application/json" req =
     if Z.of_nat (length (entity req)) >? 102400
     then Fail (JS.mkError "PayloadTooLargeError" "request entity too large")
     else Next (withBody req (Buffer (entity req)))) /\
  (typeis lib req "application/json" = true ->
   headers req !! "content-encoding" = Some "gzip" ->
   raw lib "application/json" req =
     match inflate lib "gzip" 102400 (entity req) with
     | inr bytes => Next (withBody req (Buffer bytes))
     | inl err => Fail err
     end).
Proof.
  intros Hm Hp Hb. split.
  { intros req' w0. rewrite verify_cases. cbn zeta.
    destruct (constructEvent _ _ _ _) as [err | event]; [now repeat split |].
    unfold field, prop, interp, lift, bind.
    destruct (JS.get event "type") as [err | ty]; [now repeat split |].
    destruct (JS.toString ty); now repeat split. }
  split.
  { rewrite (app_webhook_calls _ _ Hm Hp).
    destruct (raw lib "application/json" req) as [req' | resp | err];
      [apply stripeWebhook_verifier_call | now rewrite app_nil_r ..]. }
  split; [intros req' v; now apply raw_never_parses |].
  split; [now apply raw_skips |].
  split; intros Ht He; [now apply raw_reads | now apply raw_inflates].
Qed.

End Pipeline.

(** ** Requests the reference verifier rejects *)

Section Reference.

Variable digest : string -> list Byte.byte -> string.
Variable env : gmap string string.
Variable lib : Http.
Variable downstream : Request -> M Response.

Lemma unsigned_is_rejected payload secret t :
  exists err, Provider.constructEvent digest payload None secret t = inl err.
Proof. destruct payload; now eexists. Qed.


(** In the application, a request to the route that the verifier
    rejects is answered 400, one whose body cannot be read 500; no
    handler is invoked and the sink is left as it was. *)
Lemma rejected_in_app
    (constructEvent : Body -> option string -> option string -> Z -> JS.Error + JS.Value)
    req w :
  method req = "POST" -> path req = "/webhooks/stripe" ->
  (forall req', raw lib "application/json" req = Next req' ->
     exists err, constructEvent (reqBody req') (headers req' !! "stripe-signature")
                   (env !! "STRIPE_WEBHOOK_SECRET") (clock w) = inl err) ->
  exists resp w',
    app constructEvent env lib downstream req w = (inr resp, w') /\
    invoked (calls w') = invoked (calls w) /\
    sink w' = sink w /\
    match raw lib "application/json" req with
    | Next _ => exists reason, resp = mkResponse 400 (Send ("Webhook Error: " +:+ reason))
    | Fail err =>
        resp = mkResponse 500 (Json (JS.Obj [
                 ("error", JS.Str "Internal server error");
                 ("message", JS.Str (if isString (env !! "NODE_ENV") "development"
                                     then JS.message err
                                     else "Something went wrong")) ]))
    | Done _ => False
    end.
Proof.
  intros Hm Hp Hrej.
  destruct (app_webhook constructEvent env lib downstream _ w Hm Hp)
    as (resp & w' & Happ & Hcase).
  exists resp, (accessLogged lib req resp w'). split; [exact Happ |].
  cbn [accessLogged logged calls sink].
  destruct (raw lib "application/json" req) as [req' | resp' | err] eqn:Hraw.
  - destruct (Hrej req' eq_refl) as [err Herr].
    destruct (callback_rejects _ _ _ _ _ Herr) as (w0 & Hs & Hi & Hk).
    rewrite Hs in Hcase. injection Hcase as <- <-.
    repeat split; try assumption. now eexists.
  - destruct Hcase.
  - rewrite errorHandler_run in Hcase. injection Hcase as <- <-.
    now repeat split.
Qed.

Lemma raw_keeps_headers type req req' :
  raw lib type req = Next req' -> headers req' = headers req.
Proof.
  unfold raw, read.
  destruct (reqBody req); try (now intros [= <-]);
    (destruct (typeis lib req type); [| now intros [= <-]]);
    (destruct (contentstream req); [discriminate |]);
    (destruct (getBody lib _ _ _); [discriminate |]); now intros [= <-].
Qed.

(** C8, as the code has it. A [POST /webhooks/stripe] without the
    [stripe-signature] header is answered 400 with a body that starts
    with ["Webhook Error:"] whenever [express.raw] hands it to the
    route, whatever the bytes of its body; when [express.raw] cannot
    read the body (more than 102400 bytes of JSON, an unsupported content
    encoding), the answer is 500 [{error: "Internal server error"}]. No
    handler is invoked in either case. *)
Theorem unsigned_request_outcome (req : Request) (w : World) :
  method req = "POST" -> path req = "/webhooks/stripe" ->
  headers req !! "stripe-signature" = None ->
  exists resp w',
    app (Provider.constructEvent digest) env lib downstream req w = (inr resp, w') /\
    invoked (calls w') = invoked (calls w) /\
    match raw lib "application/json" req with
    | Next _ =>
        exists text,
          resp = mkResponse 400 (Send text) /\ String.prefix "Webhook Error:" text = true
    | Fail err =>
        resp = mkResponse 500 (Json (JS.Obj [
                 ("error", JS.Str "Internal server error");
                 ("message", JS.Str (if isString (env !! "NODE_ENV") "development"
                                     then JS.message err
                                     else "Something went wrong")) ]))
    | Done _ => False
    end /\
    (reqBody req = Unread ->
     typeis lib req "application/json" = true ->
     headers req !! "content-encoding" = None ->
     raw lib "application/json" req =
       if Z.of_nat (length (entity req)) >? 102400
       then Fail (JS.mkError "PayloadTooLargeError" "request entity too large")
       else Next (withBody req (Buffer (entity req)))) /\
    (reqBody req = Unread ->
     typeis lib req "application/json" = false ->
     raw lib "application/json" req = Next (withBody req Skipped)).
Proof.
  intros Hm Hp Hsig.
  destruct (rejected_in_app (Provider.constructEvent digest) req w Hm Hp)
    as (resp & w' & Happ & Hi & _ & Hcase).
  { intros req' Hraw. rewrite (raw_keeps_headers _ _ _ Hraw), Hsig.
    apply unsigned_is_rejected. }
  exists resp, w'. split; [assumption |]. split; [assumption |]. split.
  - destruct (raw lib "application/json" req); [| assumption ..].
    destruct Hcase as [reason ->]. now eexists.
  - split; [intros Hb Ht He; now apply raw_reads | now apply raw_skips].
Qed.


End Reference.

(** ** The theorems at worked deliveries *)

Example toString_number : JS.toString (JS.Num 5000) = inr "5000".
Proof. reflexivity. Qed.

Example toString_array :
  JS.toString (JS.Arr [JS.Num 1; JS.Null; JS.Arr [JS.Str "a"; JS.Num (-2)]])
  = inr "1,,a,-2".
Proof. reflexivity. Qed.

Example toString_shadowed :
  JS.toString (JS.Obj [("toString", JS.Num 1)])
  = inl (JS.TypeError "Cannot convert object to primitive value").
Proof. reflexivity. Qed.

Example toISOString_epoch : Date.toISOString 0 = "1970-01-01T00:00:00.000Z".
Proof. reflexivity. Qed.

Example toISOString_now : Date.toISOString Sample.now = "2026-11-03T12:34:56.789Z".
Proof. vm_compute. reflexivity. Qed.

Example toISOString_leap_day :
  Date.toISOString 1709251199999 = "2024-02-29T23:59:59.999Z".
Proof. vm_compute. reflexivity. Qed.

Example parse_intent : Json.parse Sample.intentBody = inr Sample.intentEvent.
Proof. vm_compute. reflexivity. Qed.

Example parse_checkout : Json.parse Sample.checkoutBody = inr Sample.checkoutEvent.
Proof. vm_compute. reflexivity. Qed.

Example parse_refund : Json.parse Sample.refundBody = inr Sample.refundEvent.
Proof. vm_compute. reflexivity. Qed.

Example verifier_accepts_signed :
  Sample.sdk (Buffer Sample.intentBody)
    (Some (Provider.sign Provider.checksum "whsec_test" Sample.signedAt Sample.intentBody))
    (Some "whsec_test") Sample.now = inr Sample.intentEvent.
Proof. vm_compute. reflexivity. Qed.

Example verifier_rejects_stale :
  Sample.sdk (Buffer Sample.intentBody)
    (Some (Provider.sign Provider.checksum "whsec_test" Sample.signedAt Sample.intentBody))
    (Some "whsec_test") (Sample.now + 301000)
  = inl (Provider.SignatureError "Timestamp outside the tolerance zone").
Proof. vm_compute. reflexivity. Qed.

(** A handler that throws after its first line: the line stays on the
    console and the route answers 500. *)
Example handler_failure_keeps_output :
  handleEvent Sample.shadowedEvent (blank Sample.now) =
  (inr failed,
   mkWorld
     [mkEntry Stdout [Text "💰 Checkout session completed: cs_2"];
      mkEntry Stderr
        [Text "❌ Error handling webhook event checkout.session.completed:";
         Err (JS.TypeError "Cannot convert object to primitive value")]]
     [Invoke CheckoutSessionCompleted Sample.shadowed] ∅ Sample.now).
Proof. vm_compute. reflexivity. Qed.

Lemma rejected_request_witness :
  exists w',
    stripeWebhook Sample.sdk Sample.env (Sample.signed "forged" Sample.intentBody)
      (blank Sample.now) =
      (inr (mkResponse 400 (Send
         "Webhook Error: No signatures found matching the expected signature for payload.")),
       w') /\
    sink w' = ∅ /\ invoked (calls w') = [].
Proof.
  destruct (rejected_request_has_no_effect Sample.sdk Sample.env
              (Sample.signed "forged" Sample.intentBody) (blank Sample.now)
              (Provider.SignatureError
                 "No signatures found matching the expected signature for payload."))
    as (w' & H & Hs & Hi & _).
  - vm_compute. reflexivity.
  - exists w'. repeat split; assumption.
Defined.

Lemma unrecognized_type_witness :
  exists w',
    stripeWebhook Sample.sdk Sample.env (Sample.signed "whsec_test" Sample.refundBody)
      (blank Sample.now) =
      (inr (mkResponse 200 (Json (JS.Obj [("received", JS.Bool true)]))), w') /\
    sink w' = ∅ /\
    invoked (calls w') = [] /\
    console w' =
      [mkEntry Stdout [Text "✅ Webhook signature verified: charge.refunded"];
       mkEntry Stdout [Text "🔔 Unhandled event type: charge.refunded"]].
Proof.
  apply (unrecognized_type_is_acknowledged Sample.sdk Sample.env
           (Sample.signed "whsec_test" Sample.refundBody) (blank Sample.now)
           Sample.refundEvent (JS.Str "charge.refunded") "charge.refunded").
  - vm_compute. reflexivity.
  - reflexivity.
  - reflexivity.
  - reflexivity.
Defined.

Lemma payment_intent_witness :
  exists w',
    stripeWebhook Sample.sdk Sample.env (Sample.signed "whsec_test" Sample.intentBody)
      (blank Sample.now) =
      (inr (mkResponse 200 (Json (JS.Obj [("received", JS.Bool true)]))), w') /\
    console w' =
      [mkEntry Stdout [Text "✅ Webhook signature verified: payment_intent.succeeded"];
       mkEntry Stdout [Text "✅ Payment intent succeeded: pi_1"];
       mkEntry Stdout [Text "💵 Amount: 5000 usd"]] /\
    invoked (calls w') = [(PaymentIntentSucceeded, Sample.intent)] /\
    sink w' = ∅.
Proof.
  apply (payment_intent_succeeded_logged Sample.sdk Sample.env
           (Sample.signed "whsec_test" Sample.intentBody) (blank Sample.now)
           Sample.intentEvent (JS.Obj [("object", Sample.intent)])).
  - vm_compute. reflexivity.
  - reflexivity.
  - reflexivity.
  - reflexivity.
Defined.

(** C4, as stated, fails: after the delivery of the scenario the sink
    holds no record, for [pi_1] or anything else. *)
Lemma payment_intent_not_recorded :
  fst (stripeWebhook Sample.sdk Sample.env
         (Sample.signed "whsec_test" Sample.intentBody) (blank Sample.now)) =
    inr (mkResponse 200 (Json (JS.Obj [("received", JS.Bool true)]))) /\
  sink (snd (stripeWebhook Sample.sdk Sample.env
               (Sample.signed "whsec_test" Sample.intentBody) (blank Sample.now))) = ∅.
Proof. split; vm_compute; reflexivity. Qed.

Lemma plain_event_witness :
  exists w',
    stripeWebhook Sample.sdk Sample.env (Sample.signed "whsec_test" Sample.checkoutBody)
      (blank Sample.now) =
      (inr (mkResponse 200 (Json (JS.Obj [("received", JS.Bool true)]))), w') /\
    sink w' = ∅.
Proof.
  destruct (verified_plain_event_is_acknowledged Sample.sdk Sample.env
              (Sample.signed "whsec_test" Sample.checkoutBody) (blank Sample.now)
              Sample.checkoutEvent (JS.Str "checkout.session.completed")
              "checkout.session.completed")
    as (_ & _ & w' & H & Hs & _).
  - vm_compute. reflexivity.
  - reflexivity.
  - reflexivity.
  - right. eexists _, _. repeat split; reflexivity.
  - exists w'. split; assumption.
Defined.

(** C9, as stated, fails: a verified [payment_intent.succeeded] event
    whose [data.object] is [null] makes its handler throw, and the route
    answers 500. *)
Lemma null_payload_fails :
  fst (stripeWebhook Sample.sdk Sample.env
         (Sample.signed "whsec_test" Sample.nullBody) (blank Sample.now)) =
    inr (mkResponse 500 (Json (JS.Obj [("error", JS.Str "Webhook handler failed")]))) /\
  fst (run PaymentIntentSucceeded JS.Null (blank Sample.now)) =
    inl (JS.TypeError "Cannot read properties of null (reading 'id')").
Proof. split; vm_compute; reflexivity. Qed.

Lemma redelivery_witness :
  console (snd (dispatch Sample.checkoutEvent
                  (at_time Sample.later
                     (snd (dispatch Sample.checkoutEvent
                             (at_time Sample.now (blank 0))))))) =
  [] ++ output (dispatch Sample.checkoutEvent) Sample.now ++
        output (dispatch Sample.checkoutEvent) Sample.later.
Proof.
  apply (redelivery_repeats_output Sample.checkoutEvent
           (JS.Str "checkout.session.completed") (blank 0) Sample.now Sample.later).
  reflexivity.
Defined.

(** C3, as stated, fails: the same signed [checkout.session.completed]
    delivery, received twice a minute apart, is acknowledged twice and
    leaves two payment records on the console that differ in their
    timestamp, and none at the sink. *)
Lemma redelivery_counterexample :
  paymentRecords
    (console
       (snd (stripeWebhook Sample.sdk Sample.env
               (Sample.signed "whsec_test" Sample.checkoutBody)
               (at_time Sample.later
                  (snd (stripeWebhook Sample.sdk Sample.env
                          (Sample.signed "whsec_test" Sample.checkoutBody)
                          (blank Sample.now))))))) =
    [Sample.paymentRecord "2026-11-03T12:34:56.789Z";
     Sample.paymentRecord "2026-11-03T12:35:56.789Z"] /\
  Sample.paymentRecord "2026-11-03T12:34:56.789Z" <>
    Sample.paymentRecord "2026-11-03T12:35:56.789Z" /\
  paymentRecords
    (console
       (snd (stripeWebhook Sample.sdk Sample.env
               (Sample.signed "whsec_test" Sample.checkoutBody)
               (blank Sample.now)))) =
    [Sample.paymentRecord "2026-11-03T12:34:56.789Z"] /\
  sink
    (snd (stripeWebhook Sample.sdk Sample.env
            (Sample.signed "whsec_test" Sample.checkoutBody)
            (at_time Sample.later
               (snd (stripeWebhook Sample.sdk Sample.env
                       (Sample.signed "whsec_test" Sample.checkoutBody)
                       (blank Sample.now)))))) = ∅.
Proof.
  split; [vm_compute; reflexivity |].
  split; [intros H; discriminate H |].
  split; vm_compute; reflexivity.
Qed.

Lemma dispatch_one_handler_witness :
  exists r w',
    dispatch Sample.shadowedEvent (blank Sample.now) = (r, w') /\
    invoked (calls w') = [(CheckoutSessionCompleted, Sample.shadowed)] /\
    sink w' = ∅ /\
    handleEvent Sample.shadowedEvent (blank Sample.now) =
      match r with
      | inr _ => (inr acknowledged, w')
      | inl error =>
          (inr failed,
           logged (mkEntry Stderr
                     [Text "❌ Error handling webhook event checkout.session.completed:";
                      Err error]) w')
      end.
Proof.
  pose proof (dispatch_invokes_one_handler Sample.shadowedEvent
                (JS.Str "checkout.session.completed")
                (JS.Obj [("object", Sample.shadowed)]) Sample.shadowed
                "checkout.session.completed" (blank Sample.now)
                eq_refl eq_refl eq_refl eq_refl) as H.
  change (handlerFor (JS.Str "checkout.session.completed"))
    with (Some CheckoutSessionCompleted) in H.
  cbv iota in H.
  destruct (run CheckoutSessionCompleted Sample.shadowed
              (called (Invoke CheckoutSessionCompleted Sample.shadowed)
                 (blank Sample.now))) as [r w'].
  destruct H as (Hd & Hi & Hs & _ & He).
  exists r, w'. repeat split; assumption.
Defined.

Lemma webhook_outcome_witness :
  exists w',
    app Sample.sdk Sample.env Sample.http Sample.notFound
      (Sample.incoming (Sample.signed "whsec_test" Sample.intentBody))
      (blank Sample.now) =
    (inr (mkResponse 200 (Json (JS.Obj [("received", JS.Bool true)]))), w').
Proof.
  destruct (webhook_four_outcomes Sample.sdk Sample.env Sample.http Sample.notFound
              (Sample.incoming (Sample.signed "whsec_test" Sample.intentBody))
              (blank Sample.now) eq_refl eq_refl)
    as (resp & w' & H & _ & Hcase & _).
  vm_compute in Hcase. subst resp. exists w'. exact H.
Defined.

(** C1, as stated, fails: a validly signed delivery whose body is a JSON
    document of 102402 bytes never reaches the route. [express.raw]
    refuses it, and the error middleware of the application answers 500
    with [{error: "Internal server error"}], a fourth outcome. *)
Lemma oversized_delivery_is_internal_error :
  Json.parse Sample.oversized = inr (JS.Arr []) /\
  Z.of_nat (length Sample.oversized) = 102402 /\
  fst (app Sample.sdk Sample.env Sample.http Sample.notFound
         (Sample.incoming (Sample.signed "whsec_test" Sample.oversized))
         (blank Sample.now)) =
    inr (mkResponse 500 (Json (JS.Obj [
           ("error", JS.Str "Internal server error");
           ("message", JS.Str "Something went wrong") ]))).
Proof. repeat split; vm_compute; reflexivity. Qed.

Lemma verifier_body_witness :
  verified (calls (snd (app Sample.sdk Sample.env Sample.http Sample.notFound
                          (Sample.incoming (Sample.signed "whsec_test" Sample.intentBody))
                          (blank Sample.now)))) =
  [Buffer Sample.intentBody].
Proof.
  destruct (verifier_call_and_body Sample.sdk Sample.env Sample.http Sample.notFound
              (Sample.incoming (Sample.signed "whsec_test" Sample.intentBody))
              (blank Sample.now) eq_refl eq_refl eq_refl)
    as (_ & H & _).
  etransitivity; [exact H | vm_compute; reflexivity].
Defined.

(** C7, as stated, fails: a validly signed delivery, acknowledged when
    it is sent as [application/json], is skipped by [express.raw] when
    it is sent as [text/plain]: the verifier is handed an empty object
    instead of the bytes of the body, and the request is answered 400. *)
Lemma plain_text_delivery_hands_empty_object :
  fst (app Sample.sdk Sample.env Sample.http Sample.notFound
         (Sample.incoming (Sample.signed "whsec_test" Sample.intentBody))
         (blank Sample.now)) =
    inr (mkResponse 200 (Json (JS.Obj [("received", JS.Bool true)]))) /\
  verified (calls (snd (app Sample.sdk Sample.env Sample.http Sample.notFound
                          (Sample.withHeader "content-type" "text/plain"
                             (Sample.incoming
                                (Sample.signed "whsec_test" Sample.intentBody)))
                          (blank Sample.now)))) =
    [Skipped] /\
  exists reason,
    fst (app Sample.sdk Sample.env Sample.http Sample.notFound
           (Sample.withHeader "content-type" "text/plain"
              (Sample.incoming (Sample.signed "whsec_test" Sample.intentBody)))
           (blank Sample.now)) =
      inr (mkResponse 400 (Send ("Webhook Error: " +:+ reason))).
Proof.
  split; [vm_compute; reflexivity |].
  split; [| eexists]; vm_compute; reflexivity.
Qed.

Lemma unsigned_request_witness :
  exists text w',
    app Sample.sdk Sample.env Sample.http Sample.notFound
      (Sample.incoming (Sample.post None Sample.intentBody)) (blank Sample.now) =
      (inr (mkResponse 400 (Send text)), w') /\
    String.prefix "Webhook Error:" text = true.
Proof.
  destruct (unsigned_request_outcome Provider.checksum Sample.env Sample.http
              Sample.notFound (Sample.incoming (Sample.post None Sample.intentBody))
              (blank Sample.now) eq_refl eq_refl)
    as (resp & w' & H & _ & Hcase & _).
  - vm_compute. reflexivity.
  - assert (Hraw : raw Sample.http "application/json"
                     (Sample.incoming (Sample.post None Sample.intentBody)) =
                   Next (Sample.post None Sample.intentBody))
      by (vm_compute; reflexivity).
    rewrite Hraw in Hcase. destruct Hcase as (text & -> & Hprefix).
    exists text, w'. split; [exact H | exact Hprefix].
Defined.

(** C8, as stated, fails: without the header, a JSON body of 102402
    bytes is answered 500 [{error: "Internal server error"}]. *)
Lemma unsigned_oversized_is_internal_error :
  headers (Sample.incoming (Sample.post None Sample.oversized)) !! "stripe-signature" =
    None /\
  fst (app Sample.sdk Sample.env Sample.http Sample.notFound
         (Sample.incoming (Sample.post None Sample.oversized)) (blank Sample.now)) =
    inr (mkResponse 500 (Json (JS.Obj [
           ("error", JS.Str "Internal server error");
           ("message", JS.Str "Something went wrong") ]))).
Proof. split; vm_compute; reflexivity. Qed.



(** * Further properties of the gateway *)

Section Gateway.

Variable constructEvent :
  Body -> option string -> option string -> Z -> JS.Error + JS.Value.
Variable env : gmap string string.

(** X1. A correctly signed body whose [type] cannot be read or printed
    (the JSON text [null], a [type] that shadows [toString]) never
    reaches the dispatcher: the log line of the first [try] throws, and
    the request is answered 400 with the message of that error, as if
    its signature had been wrong. *)
Theorem unreadable_type_is_rejected
    (req : Request) (w : World) (event : JS.Value) (err : JS.Error) :
  constructEvent (reqBody req) (headers req !! "stripe-signature")
    (env !! "STRIPE_WEBHOOK_SECRET") (clock w) = inr event ->
  (JS.get event "type" = inl err \/
   exists ty, JS.get event "type" = inr ty /\ JS.toString ty = inl err) ->
  exists w',
    stripeWebhook constructEvent env req w =
      (inr (mkResponse 400 (Send ("Webhook Error: " +:+ JS.message err))), w') /\
    invoked (calls w') = invoked (calls w) /\
    console w' = console w ++
      [mkEntry Stderr
         [Text ("❌ Webhook signature verification failed: " +:+ JS.message err)]].
Proof.
  intros Hsdk Hty.
  assert (Hf : fst (field event "type" (blank 0)) = inl err).
  { unfold field, prop, interp, lift, bind.
    destruct Hty as [-> | (ty & -> & ->)]; reflexivity. }
  assert (Hv := verify_cases constructEvent env req w). cbn zeta in Hv.
  rewrite Hsdk, Hf in Hv.
  eexists. split; [apply (stripeWebhook_rejects _ _ _ _ _ _ Hv) |].
  cbn [logged called sink calls console]. rewrite invoked_app. cbn.
  now rewrite app_nil_r.
Qed.

(** X4. Every request handed to the route calls the verifier exactly
    once, with the body, the header and the secret of that request, and
    after it invokes at most one handler: none when the verifier
    rejects, and the handler registered for the type, with
    [event.data.object], when the verifier returns an event of a
    registered type. *)
Theorem one_verification_then_at_most_one_handler (req : Request) (w : World) :
  exists inv,
    calls (snd (stripeWebhook constructEvent env req w)) =
      calls w ++
      Verify (reqBody req) (headers req !! "stripe-signature")
        (env !! "STRIPE_WEBHOOK_SECRET") :: inv /\
    (inv = [] \/ exists h arg, inv = [Invoke h arg]) /\
    match constructEvent (reqBody req) (headers req !! "stripe-signature")
            (env !! "STRIPE_WEBHOOK_SECRET") (clock w) with
    | inl _ => inv = []
    | inr event =>
        forall ty s data arg h,
          JS.get event "type" = inr ty ->
          JS.toString ty = inr s ->
          handlerFor ty = Some h ->
          JS.get event "data" = inr data ->
          JS.get data "object" = inr arg ->
          inv = [Invoke h arg]
    end.
Proof.
  assert (Hdisp : forall event w0, exists inv,
            calls (snd (dispatch event w0)) = calls w0 ++ inv /\
            (inv = [] \/ exists h arg, inv = [Invoke h arg])).
  { intros event w0.
    destruct (JS.get event "type") as [e | ty] eqn:Hty.
    - exists []. split; [| now left].
      unfold dispatch, prop, lift, bind. rewrite Hty. cbn. now rewrite app_nil_r.
    - rewrite (dispatch_handlerFor _ _ _ Hty).
      destruct (handlerFor ty) as [h |].
      + destruct (JS.get event "data") as [e | data] eqn:Hd.
        { exists []. split; [| now left].
          unfold call, prop, lift, bind. rewrite Hd. cbn. now rewrite app_nil_r. }
        destruct (JS.get data "object") as [e | arg] eqn:Ho.
        { exists []. split; [| now left].
          unfold call, prop, lift, bind. rewrite Hd, Ho. cbn. now rewrite app_nil_r. }
        exists [Invoke h arg]. split; [| right; eauto].
        rewrite (call_run _ _ _ _ _ Hd Ho).
        now destruct (handler_logsOnly h arg (called (Invoke h arg) w0))
          as (_ & _ & -> & _).
      + exists []. split; [| now left].
        destruct (unhandled_logsOnly event w0) as (_ & _ & -> & _).
        now rewrite app_nil_r. }
  assert (Hhe : forall event w0,
            calls (snd (handleEvent event w0)) = calls (snd (dispatch event w0))).
  { intros event w0. unfold handleEvent, try. unfold bind at 1.
    destruct (dispatch event w0) as [[error | []] w1]; [| reflexivity].
    cbn [snd]. unfold bind at 1. rewrite field_pure.
    destruct (fst (field event "type" (blank 0))); reflexivity. }
  destruct (verify constructEvent env req w) as [[err | event] w1] eqn:Hv.
  - exists []. rewrite (stripeWebhook_rejects _ _ _ _ _ _ Hv). cbn [snd logged calls].
    rewrite verify_cases in Hv. cbn zeta in Hv.
    destruct (constructEvent _ _ _ _) as [e | ev] eqn:Hsdk.
    + injection Hv as _ <-. split; [reflexivity |]. split; [now left | reflexivity].
    + destruct (fst (field ev "type" (blank 0))) as [e | printed] eqn:Hf; [| discriminate].
      injection Hv as _ <-. split; [reflexivity |]. split; [now left |].
      intros ty s data arg h Hty Hs. rewrite (field_ok _ _ _ _ _ Hty Hs) in Hf.
      discriminate.
  - rewrite (stripeWebhook_verified _ _ _ _ _ _ Hv), Hhe.
    destruct (Hdisp event w1) as (inv & Hcalls & Hinv). exists inv.
    rewrite verify_cases in Hv. cbn zeta in Hv.
    destruct (constructEvent _ _ _ _) as [e | ev]; [discriminate |].
    destruct (fst (field ev "type" (blank 0))) as [e | printed]; [discriminate |].
    injection Hv as <- <-. cbn [logged called calls] in Hcalls.
    split; [now rewrite Hcalls, <- app_assoc |]. split; [exact Hinv |].
    intros ty s data arg h Hty Hs Hh Hd Ho.
    rewrite (dispatch_handlerFor _ _ _ Hty), Hh, (call_run _ _ _ _ _ Hd Ho) in Hcalls.
    match type of Hcalls with
    | context [run h arg ?w0] =>
        destruct (handler_logsOnly h arg w0) as (_ & _ & Hk & _)
    end.
    rewrite Hk in Hcalls. cbn [called logged calls] in Hcalls.
    now apply app_inv_head in Hcalls.
Qed.

End Gateway.

(** X2. For an event of a recognized type whose [data] is missing or
    [null], the argument of the handler cannot be evaluated: no handler
    is invoked, and the route answers 500 and writes only its own error
    line. *)
Theorem unreadable_payload_fails_before_handler
    (event ty data : JS.Value) (s : string) (h : Handler) (err : JS.Error) (w : World) :
  JS.get event "type" = inr ty ->
  JS.toString ty = inr s ->
  handlerFor ty = Some h ->
  JS.get event "data" = inr data ->
  JS.get data "object" = inl err ->
  handleEvent event w =
  (inr failed,
   logged (mkEntry Stderr
             [Text ("❌ Error handling webhook event " +:+ s +:+ ":"); Err err]) w).
Proof.
  intros Hty Hs Hh Hd Ho.
  rewrite (handleEvent_cases _ s) by (now rewrite (field_ok _ _ _ _ _ Hty Hs)).
  rewrite (dispatch_handlerFor _ _ _ Hty), Hh.
  unfold call, prop, lift, bind. now rewrite Hd, Ho.
Qed.

(** X3. No handler writes to the error console, whatever its argument:
    in particular the [catch] block of [handleCheckoutSessionCompleted]
    is never entered. *)
Theorem handlers_write_stdout_only (h : Handler) (arg : JS.Value) (w : World) :
  exists out,
    console (snd (run h arg w)) = console w ++ out /\
    Forall (fun e => stream e = Stdout) out.
Proof.
  destruct h; cbn [run];
    unfold handleCheckoutSessionCompleted, handlePaymentIntentSucceeded,
      handlePaymentIntentFailed, handleSubscriptionCreated,
      handleSubscriptionUpdated, handleSubscriptionDeleted,
      handleInvoicePaymentSucceeded, handleInvoicePaymentFailed,
      field, prop, interp, lift, try, console_log, console_error, emit,
      Date_now, ret, throw, bind;
    (destruct arg as [| | b | z | s | items | props];
     [ exists []; split; [cbn; now rewrite app_nil_r | constructor]
     | exists []; split; [cbn; now rewrite app_nil_r | constructor]
     | .. ]);
    cbn [JS.get JS.getOpt fst snd console];
    repeat match goal with
           | |- context [match JS.toString ?v with _ => _ end] =>
               destruct (JS.toString v)
           | |- context [match JS.getOpt ?v ?k with _ => _ end] =>
               destruct (JS.getOpt v k)
           end;
    cbn [fst snd console];
    rewrite <- ?app_assoc; cbn [app];
    (eexists; split; [reflexivity | repeat constructor])
    || (exists []; split; [now rewrite app_nil_r | constructor]).
Qed.

(** * The application around the gateway *)

Section Server.

Variable constructEvent :
  Body -> option string -> option string -> Z -> JS.Error + JS.Value.
Variable env : gmap string string.
Variable lib : Http.
Variable downstream : Request -> M Response.

(** X6. [GET /health] is answered by the application before any body
    parser or router runs: 200 with the status, the time of the request
    and the environment, which is ["development"] when [NODE_ENV] is
    unset or empty; to a [HEAD] request the same status goes out without
    a body. (The request carries no validator: a conditional request can
    be answered 304.) The only line written is the one of the access
    log. *)
Theorem health_check_answers (req : Request) (w : World) :
  method req = "GET" \/ method req = "HEAD" ->
  path req = "/health" ->
  headers req !! "if-none-match" = None ->
  headers req !! "if-modified-since" = None ->
  let resp :=
    mkResponse 200
      (if String.eqb (method req) "HEAD" then Empty
       else Json (JS.Obj [
              ("status", JS.Str "OK");
              ("timestamp", JS.Str (Date.toISOString (clock w)));
              ("environment",
               JS.Str (match env !! "NODE_ENV" with
                       | Some s => if String.eqb s "" then "development" else s
                       | None => "development"
                       end)) ])) in
  app constructEvent env lib downstream req w =
  (inr resp, logged (mkEntry Stdout [Text (accessLine lib req resp (clock w))]) w).
Proof.
  intros Hm Hp Hnone Hsince resp.
  assert (Hopt : String.eqb (method req) "OPTIONS" = false)
    by (destruct Hm as [-> | ->]; reflexivity).
  assert (Hchain :
    chain env [health env; webhooks constructEvent env lib; express_json lib]
      downstream req w =
    (inr (mkResponse 200 (Json (JS.Obj [
            ("status", JS.Str "OK");
            ("timestamp", JS.Str (Date.toISOString (clock w)));
            ("environment", JS.Str (orDefault (env !! "NODE_ENV") "development")) ]))),
     w)).
  { apply chain_done. unfold health. rewrite Hp.
    destruct Hm as [-> | ->]; reflexivity. }
  unfold app. rewrite (stack_runs _ _ _ _ _ _ _ _ Hopt Hchain).
  unfold resp, sent, accessLogged, conditional. rewrite Hnone, Hsince.
  destruct Hm as [-> | ->]; reflexivity.
Qed.

Lemma json_malformed req err :
  reqBody req = Unread ->
  typeis lib req "application/json" = true ->
  headers req !! "content-encoding" = None ->
  charset lib req = None ->
  encodingExists lib "utf-8" = true ->
  Z.of_nat (length (entity req)) <= jsonLimit ->
  JSON_parse lib "utf-8" (entity req) = inl err ->
  json lib req = Fail err.
Proof.
  intros Hb Ht He Hc Hx Hl Hj. unfold json, read.
  rewrite Hb, Ht, Hc, (contentstream_identity _ He). cbn [orDefault].
  change (negb (String.prefix "utf-" "utf-8")) with false. cbv iota.
  rewrite Hx. cbn [getBody].
  destruct (_ >? _) eqn:Hgt; [lia |]. now rewrite Hj.
Qed.

Lemma json_too_large req :
  reqBody req = Unread ->
  typeis lib req "application/json" = true ->
  headers req !! "content-encoding" = None ->
  charset lib req = None ->
  Z.of_nat (length (entity req)) > jsonLimit ->
  json lib req = Fail tooLarge.
Proof.
  intros Hb Ht He Hc Hl. unfold json, read.
  rewrite Hb, Ht, Hc, (contentstream_identity _ He). cbn [orDefault].
  change (negb (String.prefix "utf-" "utf-8")) with false. cbv iota.
  cbn [getBody]. destruct (_ >? _) eqn:Hgt; [reflexivity | lia].
Qed.

(** X7. A request to an [/api] path whose body [express.json] cannot
    read or parse is answered by the error middleware, before any router
    runs: 500 ["Internal server error"], with the message of the error
    only when [NODE_ENV] is ["development"] and ["Something went wrong"]
    otherwise; the error goes to the error console, and the access log
    gets its line. That is so for a JSON body that does not parse, whose
    error is the parser's, and for one of more than 10485760 bytes. *)
Theorem unreadable_json_is_internal_error (req : Request) (w : World) :
  String.eqb (method req) "OPTIONS" = false ->
  String.eqb (method req) "HEAD" = false ->
  String.prefix "/api" (path req) = true ->
  reqBody req = Unread ->
  typeis lib req "application/json" = true ->
  headers req !! "content-encoding" = None ->
  charset lib req = None ->
  (forall err,
     json lib req = Fail err ->
     let resp :=
       mkResponse 500 (Json (JS.Obj [
         ("error", JS.Str "Internal server error");
         ("message",
          JS.Str (match env !! "NODE_ENV" with
                  | Some mode =>
                      if String.eqb mode "development"
                      then JS.message err else "Something went wrong"
                  | None => "Something went wrong"
                  end)) ])) in
     app constructEvent env lib downstream req w =
     (inr resp,
      logged (mkEntry Stdout [Text (accessLine lib req resp (clock w))])
        (logged (mkEntry Stderr [Text "Error:"; Err err]) w))) /\
  (forall err,
     encodingExists lib "utf-8" = true ->
     Z.of_nat (length (entity req)) <= 10485760 ->
     JSON_parse lib "utf-8" (entity req) = inl err ->
     json lib req = Fail err) /\
  (Z.of_nat (length (entity req)) > 10485760 ->
   json lib req =
     Fail (JS.mkError "PayloadTooLargeError" "request entity too large")).
Proof.
  intros Hm Hh Hp Hb Ht He Hc.
  split; [| split; [intros err; now apply json_malformed | now apply json_too_large]].
  intros err Hj resp.
  assert (Hhealth : String.eqb (path req) "/health" = false).
  { destruct (String.eqb_spec (path req) "/health") as [E |]; [| reflexivity].
    rewrite E in Hp. discriminate. }
  assert (Hhook : String.eqb (path req) "/webhooks/stripe" = false).
  { destruct (String.eqb_spec (path req) "/webhooks/stripe") as [E |]; [| reflexivity].
    rewrite E in Hp. discriminate. }
  assert (Hchain :
    chain env [health env; webhooks constructEvent env lib; express_json lib]
      downstream req w =
    (inr resp, logged (mkEntry Stderr [Text "Error:"; Err err]) w)).
  { rewrite (chain_next env (health env) _ _ req w req w)
      by (unfold health; rewrite Hhealth; now rewrite andb_false_r).
    rewrite (chain_next env (webhooks constructEvent env lib) _ _ req w req w)
      by (unfold webhooks; rewrite Hhook; now rewrite andb_false_r).
    rewrite (chain_fail env (express_json lib) _ _ req w err w)
      by (unfold express_json, ret; now rewrite Hj).
    unfold resp. rewrite errorHandler_run. now destruct (env !! "NODE_ENV"). }
  unfold app. rewrite (stack_runs _ _ _ _ _ _ _ _ Hm Hchain).
  unfold sent. rewrite Hh, !andb_false_r. reflexivity.
Qed.

End Server.

(** * The admin guard *)

Lemma differs_spec (a b : option string) : differs a b = true <-> a <> b.
Proof.
  destruct a as [x |], b as [y |]; cbn.
  - destruct (String.eqb_spec x y) as [-> | Hne]; cbn.
    + split; [discriminate | congruence].
    + split; [congruence | reflexivity].
  - split; [discriminate | reflexivity].
  - split; [discriminate | reflexivity].
  - split; [discriminate | congruence].
Qed.

(** X8. A request whose [x-admin-key] header is not the configured
    [ADMIN_API_KEY] is answered 401 [{error: "Unauthorized"}] and the
    guarded handler does not run: the world is left as it was, whatever
    the handler would have done. *)
Theorem admin_guard_blocks
    (env : gmap string string) (handler : Request -> M Response)
    (req : Request) (w : World) :
  headers req !! "x-admin-key" <> env !! "ADMIN_API_KEY" ->
  guarded env handler req w =
  (inr (mkResponse 401 (Json (JS.Obj [("error", JS.Str "Unauthorized")]))), w).
Proof.
  intros Hne. apply differs_spec in Hne.
  unfold guarded. apply chain_done. unfold requireAdmin. now rewrite Hne.
Qed.

(** X9. The guard lets a request through exactly on equality of the
    header and the configured key, [undefined] included: when
    [ADMIN_API_KEY] is not set, a request that carries no [x-admin-key]
    header reaches the handler. *)
Theorem admin_guard_passes_on_equal
    (env : gmap string string) (handler : Request -> M Response)
    (req : Request) (w : World) :
  headers req !! "x-admin-key" = env !! "ADMIN_API_KEY" ->
  guarded env handler req w = handler req w.
Proof.
  intros Heq. unfold guarded.
  rewrite (chain_next env (requireAdmin env) _ _ req w req w); [reflexivity |].
  unfold requireAdmin.
  destruct (differs _ _) eqn:Hd; [| reflexivity].
  apply differs_spec in Hd. contradiction.
Qed.

(** * The payment routes *)

Section PaymentFacts.

Variable subscriptions_update : JS.Value -> JS.Value -> JS.Error + JS.Value.
Variable subscriptions_cancel : JS.Value -> JS.Error + JS.Value.
Variable refunds_create : JS.Value -> JS.Error + JS.Value.
Variable sessions_retrieve : JS.Value -> JS.Error + JS.Value.
Variable toCents : JS.Value -> JS.Error + JS.Value.
Variable toUnits : JS.Value -> JS.Error + JS.Value.

Local Abbreviation cancelRoute :=
  (cancelSubscription subscriptions_update subscriptions_cancel refunds_create
     sessions_retrieve).
Local Abbreviation refundRoute :=
  (createRefund subscriptions_update subscriptions_cancel refunds_create
     sessions_retrieve toCents toUnits).
Local Abbreviation verifyRoute :=
  (verifyPayment subscriptions_update subscriptions_cancel refunds_create
     sessions_retrieve).
Local Abbreviation send :=
  (request subscriptions_update subscriptions_cancel refunds_create sessions_retrieve).

Lemma destructure_other body k v k' :
  destructure body k = inr v -> destructure body k' = JS.get body k'.
Proof. destruct body; cbn; congruence. Qed.

(** How a cancellation ends once the request to the provider is made. *)
Lemma cancel_cases body id flag b :
  destructure body "subscriptionId" = inr id ->
  destructure body "cancelAtPeriodEnd" = inr flag ->
  truthy id = true ->
  exists c,
    c = (if truthy (orElse flag (JS.Bool true))
         then SubscriptionsUpdate id (JS.Obj [("cancel_at_period_end", JS.Bool true)])
         else SubscriptionsCancel id) /\
    api (snd (cancelRoute body b)) = api b ++ [c] /\
    forall error,
      fst (send c b) = inl error ->
      cancelRoute body b =
      (inr (mkResponse 500 (Json (JS.Obj [
         ("error", JS.Str "Failed to cancel subscription");
         ("message", JS.Str (JS.message error)) ]))),
       mkBackend
         (logged (mkEntry Stderr [Text "Error canceling subscription:"; Err error])
            (host b))
         (api b ++ [c])).
Proof.
  intros Hid Hflag Ht. eexists. split; [reflexivity |].
  unfold cancelSubscription.
  unfold tryS, bindS, onHost, lift, prop, retS, console_error, emit, logged.
  rewrite Hid, Hflag, Ht. cbn [negb fst snd host api].
  destruct b as [w calls0]. cbn [host api].
  destruct (truthy (orElse flag (JS.Bool true))); cbn [request fst snd host api].
  - destruct (subscriptions_update _ _) as [e | sub]; cbn [fst snd host api].
    + split; [reflexivity |]. now intros error [= ->].
    + split; [destruct sub; reflexivity | discriminate].
  - destruct (subscriptions_cancel _) as [e | sub]; cbn [fst snd host api].
    + split; [reflexivity |]. now intros error [= ->].
    + split; [destruct sub; reflexivity | discriminate].
Qed.


(** X10. [POST /cancel-subscription] with a missing or falsy
    [subscriptionId] is answered 400 [{error: "Missing subscription ID"}]
    without any request to the provider and without writing anything. *)
Theorem cancel_requires_subscription_id (body id : JS.Value) (b : Backend) :
  destructure body "subscriptionId" = inr id ->
  truthy id = false ->
  cancelRoute body b =
  (inr (mkResponse 400 (Json (JS.Obj [("error", JS.Str "Missing subscription ID")]))), b).
Proof.
  intros Hid Ht. unfold cancelSubscription.
  unfold tryS, bindS, onHost, lift, retS.
  rewrite Hid, (destructure_other _ _ _ "cancelAtPeriodEnd" Hid), Ht.
  destruct b as [w calls0]. cbn [host api].
  now destruct body.
Qed.

(** X11. A cancellation makes exactly one request to the provider. It
    ends the subscription at the end of the period (an update with
    [cancel_at_period_end: true]) when [cancelAtPeriodEnd] is omitted or
    truthy, and at once when it is present and falsy: [false], but also
    [null], [0] or the empty string. *)
Theorem cancel_mode (body id flag : JS.Value) (b : Backend) :
  destructure body "subscriptionId" = inr id ->
  truthy id = true ->
  destructure body "cancelAtPeriodEnd" = inr flag ->
  api (snd (cancelRoute body b)) =
  api b ++
  [if match flag with JS.Undefined => true | _ => truthy flag end
   then SubscriptionsUpdate id (JS.Obj [("cancel_at_period_end", JS.Bool true)])
   else SubscriptionsCancel id].
Proof.
  intros Hid Ht Hflag.
  destruct (cancel_cases body id flag b Hid Hflag Ht) as (c & -> & -> & _).
  now destruct flag.
Qed.

(** X12. When the provider rejects the cancellation, the route answers
    500 [{error: "Failed to cancel subscription", message}] with the
    message of the provider's error, and writes the error to the error
    console. *)
Theorem cancel_reports_provider_error
    (body id flag : JS.Value) (b : Backend) (error : JS.Error) :
  destructure body "subscriptionId" = inr id ->
  truthy id = true ->
  destructure body "cancelAtPeriodEnd" = inr flag ->
  (if match flag with JS.Undefined => true | _ => truthy flag end
   then subscriptions_update id (JS.Obj [("cancel_at_period_end", JS.Bool true)])
   else subscriptions_cancel id) = inl error ->
  fst (cancelRoute body b) =
    inr (mkResponse 500 (Json (JS.Obj [
      ("error", JS.Str "Failed to cancel subscription");
      ("message", JS.Str (JS.message error)) ]))) /\
  console (host (snd (cancelRoute body b))) =
    console (host b) ++
    [mkEntry Stderr [Text "Error canceling subscription:"; Err error]].
Proof.
  intros Hid Ht Hflag Herr.
  destruct (cancel_cases body id flag b Hid Hflag Ht) as (c & -> & _ & Hfail).
  rewrite (Hfail error); [now split |].
  destruct flag; cbn [orElse truthy] in *; try exact Herr;
    match goal with
    | |- context [if ?t then _ else _] => destruct t; exact Herr
    end.
Qed.

(** X13. After a successful cancellation the answer carries four fields
    of the provider's subscription and no other: [id], [status],
    [cancel_at_period_end] and [canceled_at]. *)
Theorem cancel_answers_four_fields
    (body id flag : JS.Value) (props : list (string * JS.Value)) (b : Backend) :
  destructure body "subscriptionId" = inr id ->
  truthy id = true ->
  destructure body "cancelAtPeriodEnd" = inr flag ->
  (if match flag with JS.Undefined => true | _ => truthy flag end
   then subscriptions_update id (JS.Obj [("cancel_at_period_end", JS.Bool true)])
   else subscriptions_cancel id) = inr (JS.Obj props) ->
  fst (cancelRoute body b) =
    inr (mkResponse 200 (Json (JS.Obj [
      ("subscription", JS.Obj [
         ("id", default JS.Undefined (JS.lookup "id" props));
         ("status", default JS.Undefined (JS.lookup "status" props));
         ("cancel_at_period_end",
          default JS.Undefined (JS.lookup "cancel_at_period_end" props));
         ("canceled_at", default JS.Undefined (JS.lookup "canceled_at" props)) ]) ]))) /\
  host (snd (cancelRoute body b)) = host b.
Proof.
  intros Hid Ht Hflag Hok. unfold cancelSubscription.
  unfold tryS, bindS, onHost, lift, prop, retS.
  rewrite Hid, Hflag, Ht. cbn [negb fst snd host api].
  destruct b as [w calls0]. cbn [host api].
  assert (Hmode : truthy (orElse flag (JS.Bool true)) =
                  match flag with JS.Undefined => true | _ => truthy flag end)
    by (now destruct flag).
  rewrite Hmode.
  destruct (match flag with JS.Undefined => true | _ => truthy flag end);
    cbn [request fst snd host api]; rewrite Hok; cbn; now split.
Qed.

(** X14. [POST /create-refund] with a missing or falsy [paymentIntentId]
    is answered 400 [{error: "Missing payment intent ID"}] without any
    request to the provider. *)
Theorem refund_requires_payment_intent (body id : JS.Value) (b : Backend) :
  destructure body "paymentIntentId" = inr id ->
  truthy id = false ->
  refundRoute body b =
  (inr (mkResponse 400 (Json (JS.Obj [("error", JS.Str "Missing payment intent ID")]))), b).
Proof.
  intros Hid Ht. unfold createRefund.
  unfold tryS, bindS, onHost, lift, retS.
  rewrite Hid, (destructure_other _ _ _ "amount" Hid),
    (destructure_other _ _ _ "reason" Hid), Ht.
  destruct b as [w calls0]. cbn [host api].
  now destruct body.
Qed.

(** X15. A refund makes one request to the provider, for the given
    payment intent. The request carries an [amount] (the amount in
    cents) only when the [amount] of the body is truthy: an amount that
    is omitted, [null], [0] or the empty string asks for a full refund.
    The [reason] is ["requested_by_customer"] when the body has none. *)
Theorem refund_amount_only_when_truthy
    (body id amount reason cents : JS.Value) (b : Backend) :
  destructure body "paymentIntentId" = inr id ->
  truthy id = true ->
  destructure body "amount" = inr amount ->
  destructure body "reason" = inr reason ->
  (truthy amount = true -> toCents amount = inr cents) ->
  api (snd (refundRoute body b)) =
  api b ++
  [RefundsCreate (JS.Obj (
     [("payment_intent", id);
      ("reason", match reason with
                 | JS.Undefined => JS.Str "requested_by_customer"
                 | _ => reason
                 end)] ++
     (if truthy amount then [("amount", cents)] else [])))].
Proof.
  intros Hid Ht Hamount Hreason Hcents. unfold createRefund.
  destruct b as [w calls0].
  cbv beta iota delta [tryS bindS onHost lift prop retS console_error emit request
                       fst snd host api].
  rewrite Hid, Hamount, Hreason, Ht. cbv beta iota delta [negb].
  destruct (truthy amount).
  - rewrite (Hcents eq_refl). cbv beta iota.
    change (Json.define "amount" cents
              [("payment_intent", id);
               ("reason", orElse reason (JS.Str "requested_by_customer"))])
      with [("payment_intent", id);
            ("reason", orElse reason (JS.Str "requested_by_customer"));
            ("amount", cents)].
    destruct (refunds_create _) as [e | refund]; [now destruct reason |].
    destruct (JS.get refund "id"); [now destruct reason |].
    destruct (JS.get refund "amount") as [e | paid]; [now destruct reason |].
    destruct (toUnits paid); [now destruct reason |].
    destruct (JS.get refund "status"); [now destruct reason |].
    destruct (JS.get refund "reason"); now destruct reason.
  - cbv beta iota.
    destruct (refunds_create _) as [e | refund]; [now destruct reason |].
    destruct (JS.get refund "id"); [now destruct reason |].
    destruct (JS.get refund "amount") as [e | paid]; [now destruct reason |].
    destruct (toUnits paid); [now destruct reason |].
    destruct (JS.get refund "status"); [now destruct reason |].
    destruct (JS.get refund "reason"); now destruct reason.
Qed.

(** X16. [GET /verify-payment] reports [status: "success"] only for a
    session that the provider returned with [payment_status] equal to
    the string ["paid"]: never on a missing [session_id], on an error of
    the provider, or for any other payment status. *)
Theorem success_only_when_paid
    (query : list (string * JS.Value)) (b : Backend) (code : Z) (answer : JS.Value) :
  fst (verifyRoute query b) = inr (mkResponse code (Json answer)) ->
  JS.get answer "status" = inr (JS.Str "success") ->
  exists session,
    sessions_retrieve (default JS.Undefined (JS.lookup "session_id" query)) = inr session /\
    JS.get session "payment_status" = inr (JS.Str "paid") /\
    api (snd (verifyRoute query b)) =
      api b ++ [SessionsRetrieve (default JS.Undefined (JS.lookup "session_id" query))].
Proof.
  unfold verifyPayment. destruct b as [w calls0].
  cbv beta iota zeta delta [tryS bindS onHost lift prop interp retS console_log
                            console_error emit request fst snd host api].
  destruct (truthy (default JS.Undefined (JS.lookup "session_id" query)));
    cbv beta iota delta [negb]; [| intros [= <- <-]; discriminate].
  destruct (sessions_retrieve _) as [e | session]; [intros [= <- <-]; discriminate |].
  destruct (JS.toString _) as [e | shown]; [intros [= <- <-]; discriminate |].
  destruct (JS.get session "payment_status") as [e | status] eqn:Hstatus;
    [intros [= <- <-]; discriminate |].
  destruct (JS.strictEqStr status "paid") eqn:Hpaid.
  - intros _ _. exists session. split; [reflexivity |]. split.
    + destruct status; try discriminate. cbn in Hpaid.
      apply String.eqb_eq in Hpaid. now subst.
    + destruct (JS.get session "id"); [reflexivity |].
      destruct (JS.get session "customer_email"); [reflexivity |].
      destruct (JS.get session "amount_total"); [reflexivity |].
      destruct (JS.get session "currency"); [reflexivity |].
      destruct (JS.get session "metadata"); reflexivity.
  - destruct (JS.get session "id"); [intros [= <- <-]; discriminate |].
    intros [= <- <-]. discriminate.
Qed.

End PaymentFacts.

(** ** The further properties at worked requests *)

Lemma unreadable_type_witness :
  exists w',
    stripeWebhook Sample.sdk Sample.env (Sample.signed "whsec_test" (Json.text "null"))
      (blank Sample.now) =
      (inr (mkResponse 400 (Send
         "Webhook Error: Cannot read properties of null (reading 'type')")), w') /\
    invoked (calls w') = [].
Proof.
  destruct (unreadable_type_is_rejected Sample.sdk Sample.env
              (Sample.signed "whsec_test" (Json.text "null")) (blank Sample.now)
              JS.Null (JS.TypeError "Cannot read properties of null (reading 'type')"))
    as (w' & H & Hi & _).
  - vm_compute. reflexivity.
  - left. reflexivity.
  - exists w'. split; assumption.
Defined.

Lemma unreadable_payload_witness :
  handleEvent (JS.Obj [("type", JS.Str "invoice.payment_failed")]) (blank Sample.now) =
  (inr failed,
   logged (mkEntry Stderr
             [Text "❌ Error handling webhook event invoice.payment_failed:";
              Err (JS.TypeError "Cannot read properties of undefined (reading 'object')")])
     (blank Sample.now)).
Proof.
  apply (unreadable_payload_fails_before_handler
           (JS.Obj [("type", JS.Str "invoice.payment_failed")])
           (JS.Str "invoice.payment_failed") JS.Undefined
           "invoice.payment_failed" InvoicePaymentFailed); reflexivity.
Defined.

Lemma one_verification_witness :
  exists inv,
    calls (snd (stripeWebhook Sample.sdk Sample.env
                  (Sample.signed "whsec_test" Sample.intentBody) (blank Sample.now))) =
      [] ++
      Verify (Buffer Sample.intentBody)
        (Some (Provider.sign Provider.checksum "whsec_test" Sample.signedAt
                 Sample.intentBody))
        (Some "whsec_test") :: inv /\
    (inv = [] \/ exists h arg, inv = [Invoke h arg]).
Proof.
  destruct (one_verification_then_at_most_one_handler Sample.sdk Sample.env
              (Sample.signed "whsec_test" Sample.intentBody) (blank Sample.now))
    as (inv & H & Hinv & _).
  exists inv. split; [exact H | exact Hinv].
Defined.

Lemma health_check_witness :
  app Sample.sdk Sample.env Sample.http Sample.notFound
    Cases.healthCheck (blank Sample.now) =
  (inr (mkResponse 200 (Json (JS.Obj [
     ("status", JS.Str "OK");
     ("timestamp", JS.Str (Date.toISOString Sample.now));
     ("environment", JS.Str "development") ]))),
   logged (mkEntry Stdout [Text "GET /health 200"]) (blank Sample.now)).
Proof.
  exact (health_check_answers Sample.sdk Sample.env Sample.http Sample.notFound
           Cases.healthCheck (blank Sample.now) (or_introl eq_refl) eq_refl
           eq_refl eq_refl).
Defined.

Lemma unreadable_json_witness :
  exists err,
    app Sample.sdk Sample.env Sample.http Sample.notFound
      Cases.malformed (blank Sample.now) =
    (inr (mkResponse 500 (Json (JS.Obj [
       ("error", JS.Str "Internal server error");
       ("message", JS.Str "Something went wrong") ]))),
     logged (mkEntry Stdout [Text "POST /api/create-refund 500"])
       (logged (mkEntry Stderr [Text "Error:"; Err err]) (blank Sample.now))).
Proof.
  destruct (unreadable_json_is_internal_error Sample.sdk Sample.env Sample.http
              Sample.notFound Cases.malformed (blank Sample.now))
    as (Happ & Hparse & _); try reflexivity.
  exists Json.SyntaxError. apply (Happ Json.SyntaxError).
  apply Hparse; [reflexivity | now vm_compute | vm_compute; reflexivity].
Defined.

Lemma admin_guard_blocks_witness :
  guarded Cases.adminEnv (deleteUser "42") (Cases.admin (Some "guess")) (blank Sample.now) =
  (inr (mkResponse 401 (Json (JS.Obj [("error", JS.Str "Unauthorized")]))),
   blank Sample.now).
Proof.
  apply (admin_guard_blocks Cases.adminEnv (deleteUser "42")
           (Cases.admin (Some "guess")) (blank Sample.now)).
  vm_compute. discriminate.
Defined.

Lemma admin_guard_open_witness :
  guarded ∅ (deleteUser "42") (Cases.admin None) (blank Sample.now) =
  (inr (mkResponse 200 (Json (JS.Obj [("message", JS.Str "User deleted successfully")]))),
   logged (mkEntry Stdout [Text "Deleting user 42"]) (blank Sample.now)).
Proof.
  rewrite (admin_guard_passes_on_equal ∅ (deleteUser "42") (Cases.admin None)
             (blank Sample.now)); reflexivity.
Defined.

Lemma cancel_requires_id_witness :
  cancelSubscription Cases.subscriptions_update Cases.subscriptions_cancel
    Cases.refunds_create Cases.sessions_retrieve (JS.Obj [("cancelAtPeriodEnd", JS.Bool false)]) Cases.start =
  (inr (mkResponse 400 (Json (JS.Obj [("error", JS.Str "Missing subscription ID")]))),
   Cases.start).
Proof.
  apply (cancel_requires_subscription_id Cases.subscriptions_update
           Cases.subscriptions_cancel Cases.refunds_create Cases.sessions_retrieve
           _ JS.Undefined);
    reflexivity.
Defined.

Lemma cancel_mode_witness :
  api (snd (cancelSubscription Cases.subscriptions_update Cases.subscriptions_cancel
              Cases.refunds_create Cases.sessions_retrieve
              (JS.Obj [("subscriptionId", JS.Str "sub_1"); ("cancelAtPeriodEnd", JS.Null)])
              Cases.start)) =
  [] ++ [SubscriptionsCancel (JS.Str "sub_1")].
Proof.
  apply (cancel_mode Cases.subscriptions_update Cases.subscriptions_cancel
           Cases.refunds_create Cases.sessions_retrieve _ (JS.Str "sub_1") JS.Null); reflexivity.
Defined.

Lemma cancel_error_witness :
  fst (cancelSubscription Cases.subscriptions_update Cases.subscriptions_cancel
         Cases.refunds_create Cases.sessions_retrieve (JS.Obj [("subscriptionId", JS.Str "sub_9")]) Cases.start) =
  inr (mkResponse 500 (Json (JS.Obj [
    ("error", JS.Str "Failed to cancel subscription");
    ("message", JS.Str "No such subscription") ]))).
Proof.
  apply (cancel_reports_provider_error Cases.subscriptions_update
           Cases.subscriptions_cancel Cases.refunds_create Cases.sessions_retrieve
           (JS.Obj [("subscriptionId", JS.Str "sub_9")]) (JS.Str "sub_9") JS.Undefined
           Cases.start Cases.notFound); reflexivity.
Defined.

Lemma cancel_answer_witness :
  fst (cancelSubscription Cases.subscriptions_update Cases.subscriptions_cancel
         Cases.refunds_create Cases.sessions_retrieve (JS.Obj [("subscriptionId", JS.Str "sub_1")]) Cases.start) =
  inr (mkResponse 200 (Json (JS.Obj [
    ("subscription", JS.Obj [
       ("id", JS.Str "sub_1");
       ("status", JS.Str "active");
       ("cancel_at_period_end", JS.Bool true);
       ("canceled_at", JS.Null) ]) ]))).
Proof.
  destruct (cancel_answers_four_fields Cases.subscriptions_update
              Cases.subscriptions_cancel Cases.refunds_create Cases.sessions_retrieve
              (JS.Obj [("subscriptionId", JS.Str "sub_1")]) (JS.Str "sub_1") JS.Undefined
              [("id", JS.Str "sub_1"); ("status", JS.Str "active");
               ("cancel_at_period_end", JS.Bool true); ("canceled_at", JS.Null)]
              Cases.start) as [H _];
    [reflexivity | reflexivity | reflexivity | reflexivity | exact H].
Defined.

Lemma refund_requires_intent_witness :
  createRefund Cases.subscriptions_update Cases.subscriptions_cancel
    Cases.refunds_create Cases.sessions_retrieve Cases.toCents Cases.toUnits
    (JS.Obj [("amount", JS.Num 25)]) Cases.start =
  (inr (mkResponse 400 (Json (JS.Obj [("error", JS.Str "Missing payment intent ID")]))),
   Cases.start).
Proof.
  apply (refund_requires_payment_intent Cases.subscriptions_update
           Cases.subscriptions_cancel Cases.refunds_create Cases.sessions_retrieve Cases.toCents Cases.toUnits
           _ JS.Undefined); reflexivity.
Defined.

Lemma refund_amount_witness :
  api (snd (createRefund Cases.subscriptions_update Cases.subscriptions_cancel
              Cases.refunds_create Cases.sessions_retrieve Cases.toCents Cases.toUnits
              (JS.Obj [("paymentIntentId", JS.Str "pi_1"); ("amount", JS.Num 25)])
              Cases.start)) =
  [] ++ [RefundsCreate (JS.Obj ([("payment_intent", JS.Str "pi_1");
                                 ("reason", JS.Str "requested_by_customer")] ++
                                [("amount", JS.Num 2500)]))].
Proof.
  apply (refund_amount_only_when_truthy Cases.subscriptions_update
           Cases.subscriptions_cancel Cases.refunds_create Cases.sessions_retrieve Cases.toCents Cases.toUnits
           _ (JS.Str "pi_1") (JS.Num 25) JS.Undefined (JS.Num 2500)); reflexivity.
Defined.

(** An amount of zero asks for a full refund. *)
Example refund_of_zero_is_full :
  api (snd (createRefund Cases.subscriptions_update Cases.subscriptions_cancel
              Cases.refunds_create Cases.sessions_retrieve Cases.toCents Cases.toUnits
              (JS.Obj [("paymentIntentId", JS.Str "pi_1"); ("amount", JS.Num 0)])
              Cases.start)) =
  [RefundsCreate (JS.Obj [("payment_intent", JS.Str "pi_1");
                          ("reason", JS.Str "requested_by_customer")])].
Proof. reflexivity. Qed.

Lemma success_only_when_paid_witness :
  exists session,
    Cases.sessions_retrieve (JS.Str "cs_paid") = inr session /\
    JS.get session "payment_status" = inr (JS.Str "paid").
Proof.
  destruct (success_only_when_paid Cases.subscriptions_update Cases.subscriptions_cancel
              Cases.refunds_create Cases.sessions_retrieve
              [("session_id", JS.Str "cs_paid")] Cases.start 200
              (JS.Obj [("status", JS.Str "success");
                       ("sessionId", JS.Str "cs_paid");
                       ("customerEmail", JS.Str "tenant@example.com");
                       ("amountTotal", JS.Num 120000);
                       ("currency", JS.Str "usd");
                       ("metadata", JS.Undefined)]))
    as (session & H1 & H2 & _); [reflexivity | reflexivity |].
  exists session. split; assumption.
Defined.

(** An unpaid session is reported as pending. *)
Example unpaid_session_is_pending :
  fst (verifyPayment Cases.subscriptions_update Cases.subscriptions_cancel
         Cases.refunds_create Cases.sessions_retrieve
         [("session_id", JS.Str "cs_open")] Cases.start) =
  inr (mkResponse 200 (Json (JS.Obj [
    ("status", JS.Str "pending");
    ("sessionId", JS.Str "cs_open");
    ("paymentStatus", JS.Str "unpaid") ]))).
Proof. reflexivity. Qed.
